(** * GitLab merge-request review bot ([mr.py])

    A shallow embedding of the webhook endpoint, the extraction of a command
    from a comment, the two prompt builders and the two background handlers
    of [mr.py], followed by the properties of the specification that were
    checked against them.

    Conventions.
    - A Python [str] is the list of its code points ([pystr]); indices and
      lengths are Python ints ([Z]).
    - A decoded JSON value is a [json]; a Python [dict] is an association
      list in which the first binding of a key is the live one.  JSON numbers
      with a fraction or an exponent are not modelled.
    - [os.path] is [posixpath].
    - A function that can raise returns a [result]; a function that talks to
      GitLab or to the generation service runs in the monad [M], which
      records every outbound call (and the log lines that report a decision)
      in a trace.  The answers of the outside world come from a [World]; a
      call is identified by the project, the merge request and the comment
      it is about, not by its URL.
    - The thread a webhook starts is run by [run_thread]; how threads
      interleave is not modelled.
    - [print] writes to a standard output that encodes to UTF-8, so it
      raises [UnicodeEncodeError] on a text that holds a lone surrogate
      ([json.loads] accepts one; under the error handler [surrogateescape]
      U+DC80..U+DCFF pass).  Every [print] that shows a value of the
      payload, an argument or a caught message of the generation service is
      modelled.  The text of an HTTP response, the value of an HTTP header
      and the message of an exception raised by [requests], by Flask, by
      [json] or by the interpreter hold no lone surrogate, [json.dumps]
      writes ASCII, and the [str] of a dict is a [repr]; the prints that
      show nothing else cannot fail and are left out. *)

From Stdlib Require Import List NArith ZArith Bool Lia.
From Stdlib Require Import Strings.String Strings.Ascii.
From Stdlib Require DecimalString.
Import ListNotations.

Set Implicit Arguments.
Set Warnings "-register-all".

(** ** Python strings *)

Module PyStr.

Definition pystr := list N.

(** Source literals are written as UTF-8 text and decoded to code points. *)
Fixpoint utf8_decode (bs : list N) : pystr :=
  match bs with
  | [] => []
  | b :: r =>
      if (b <? 0x80)%N then b :: utf8_decode r
      else if (b <? 0xE0)%N then
        match r with
        | c1 :: r' =>
            N.lor (N.shiftl (N.land b 0x1F) 6) (N.land c1 0x3F) :: utf8_decode r'
        | _ => []
        end
      else if (b <? 0xF0)%N then
        match r with
        | c1 :: c2 :: r' =>
            N.lor (N.shiftl (N.land b 0x0F) 12)
              (N.lor (N.shiftl (N.land c1 0x3F) 6) (N.land c2 0x3F))
            :: utf8_decode r'
        | _ => []
        end
      else
        match r with
        | c1 :: c2 :: c3 :: r' =>
            N.lor (N.shiftl (N.land b 0x07) 18)
              (N.lor (N.shiftl (N.land c1 0x3F) 12)
                 (N.lor (N.shiftl (N.land c2 0x3F) 6) (N.land c3 0x3F)))
            :: utf8_decode r'
        | _ => []
        end
  end.

Definition utf8 (s : string) : pystr :=
  utf8_decode (map N_of_ascii (list_ascii_of_string s)).

Definition nl : pystr := [10%N].

Definition str_eqb (a b : pystr) : bool :=
  if list_eq_dec N.eq_dec a b then true else false.

(** [len(s)] *)
Definition len (s : pystr) : Z := Z.of_nat (List.length s).

(** [s.startswith(sub)] *)
Fixpoint startswith (sub s : pystr) : bool :=
  match sub, s with
  | [], _ => true
  | _ :: _, [] => false
  | a :: sub', b :: s' => (a =? b)%N && startswith sub' s'
  end.

(** [s.find(sub)], counted from [i]: the lowest index of an occurrence,
    [-1] when there is none. *)
Fixpoint find_from (sub s : pystr) (i : Z) : Z :=
  if startswith sub s then i
  else match s with
       | [] => (-1)%Z
       | _ :: t => find_from sub t (i + 1)%Z
       end.

Definition find (sub s : pystr) : Z := find_from sub s 0%Z.

(** [sub in s] *)
Fixpoint contains (sub s : pystr) : bool :=
  startswith sub s ||
  match s with
  | [] => false
  | _ :: t => contains sub t
  end.

(** [s.rfind(ch)] for a one-character [ch]: the highest index, or [-1]. *)
Fixpoint rfind_from (ch : N) (s : pystr) (i : Z) (last : Z) : Z :=
  match s with
  | [] => last
  | c :: t => rfind_from ch t (i + 1)%Z (if (c =? ch)%N then i else last)
  end.

Definition rfind (ch : N) (s : pystr) : Z := rfind_from ch s 0%Z (-1)%Z.

(** [s[i:]]: a negative [i] counts from the end. *)
Definition slice_from (s : pystr) (i : Z) : pystr :=
  if (i <? 0)%Z then skipn (Z.to_nat (Z.max 0 (len s + i))) s
  else skipn (Z.to_nat i) s.

(** [s[:i]] *)
Definition slice_to (s : pystr) (i : Z) : pystr :=
  if (i <? 0)%Z then firstn (Z.to_nat (Z.max 0 (len s + i))) s
  else firstn (Z.to_nat i) s.

(** [ch.isspace()], as [str.strip()] with no argument uses it. *)
Definition isspace (c : N) : bool :=
  (((0x09 <=? c) && (c <=? 0x0D)) || ((0x1C <=? c) && (c <=? 0x20))
   || (c =? 0x85) || (c =? 0xA0) || (c =? 0x1680)
   || ((0x2000 <=? c) && (c <=? 0x200A))
   || (c =? 0x2028) || (c =? 0x2029) || (c =? 0x202F) || (c =? 0x205F)
   || (c =? 0x3000))%N.

Fixpoint lstrip (s : pystr) : pystr :=
  match s with
  | [] => []
  | c :: t => if isspace c then lstrip t else s
  end.

Definition rstrip (s : pystr) : pystr := rev (lstrip (rev s)).

(** [s.strip()] *)
Definition strip (s : pystr) : pystr := rstrip (lstrip s).

(** [os.path.splitext] of [posixpath]: [sep = '/'], no [altsep],
    [extsep = '.'].  The loop skips the dots that lead the file name. *)
Definition sep : N := 0x2F%N.
Definition extsep : N := 0x2E%N.

Fixpoint splitext_loop (p : pystr) (dotIndex filenameIndex : Z) (steps : nat)
  : pystr * pystr :=
  match steps with
  | O => (p, [])
  | S n =>
      if str_eqb (slice_to (slice_from p filenameIndex) 1) [extsep]
      then splitext_loop p dotIndex (filenameIndex + 1)%Z n
      else (slice_to p dotIndex, slice_from p dotIndex)
  end.

Definition splitext (p : pystr) : pystr * pystr :=
  let sepIndex := rfind sep p in
  let dotIndex := rfind extsep p in
  if (dotIndex >? sepIndex)%Z then
    let filenameIndex := (sepIndex + 1)%Z in
    splitext_loop p dotIndex filenameIndex (Z.to_nat (dotIndex - filenameIndex))
  else (p, []).

End PyStr.
Export PyStr.

(** ** Decoded JSON and Python exceptions *)

Module Json.

Inductive json :=
| JNull                                  (* None *)
| JBool (b : bool)
| JInt (z : Z)
| JStr (s : pystr)
| JArr (l : list json)
| JObj (kv : list (pystr * json)).

Inductive exn :=
| AttributeError
| TypeError
| RequestsTimeout        (* requests.exceptions.Timeout *)
| RequestsError          (* any other exception of requests *)
| JSONDecodeError
| UnicodeEncodeError.    (* [print] of a text that standard output cannot encode *)

Inductive result (A : Type) :=
| Ok (a : A)
| Raise (e : exn).
Arguments Raise {A} e.

Fixpoint dict_get (k : pystr) (kv : list (pystr * json)) : option json :=
  match kv with
  | [] => None
  | (k', v) :: rest => if str_eqb k k' then Some v else dict_get k rest
  end.

(** [k in d] *)
Definition has_key (k : pystr) (kv : list (pystr * json)) : bool :=
  match dict_get k kv with Some _ => true | None => false end.

(** [d.get(k, default)]; only a dict has a [get]. *)
Definition py_get (d : json) (k : pystr) (default : json) : result json :=
  match d with
  | JObj kv => Ok (match dict_get k kv with Some v => v | None => default end)
  | _ => Raise AttributeError
  end.

(** [x is None] *)
Definition is_none (v : json) : bool :=
  match v with JNull => true | _ => false end.

(** [bool(x)]: what [if not x] tests. *)
Definition truthy (v : json) : bool :=
  match v with
  | JNull => false
  | JBool b => b
  | JInt z => negb (z =? 0)%Z
  | JStr s => match s with [] => false | _ => true end
  | JArr l => match l with [] => false | _ => true end
  | JObj kv => match kv with [] => false | _ => true end
  end.

(** The number a [bool] or an [int] compares as. *)
Definition as_int (v : json) : option Z :=
  match v with
  | JBool b => Some (if b then 1 else 0)%Z
  | JInt z => Some z
  | _ => None
  end.

Definition keys (kv : list (pystr * json)) : list pystr :=
  nodup (list_eq_dec N.eq_dec) (map fst kv).

(** [a == b] on decoded JSON: numbers by value ([True == 1]), strings and
    lists element by element, dicts by their live bindings. *)
Fixpoint py_eq (a b : json) : bool :=
  match a, b with
  | JNull, JNull => true
  | JBool x, _ =>
      match as_int b with Some y => ((if x then 1 else 0) =? y)%Z | None => false end
  | JInt x, _ =>
      match as_int b with Some y => (x =? y)%Z | None => false end
  | JStr s, JStr t => str_eqb s t
  | JArr l, JArr m =>
      (fix all2 (l : list json) (m : list json) : bool :=
         match l, m with
         | [], [] => true
         | x :: l', y :: m' => py_eq x y && all2 l' m'
         | _, _ => false
         end) l m
  | JObj kv, JObj kv' =>
      (fix live (l : list (pystr * json)) (seen : list pystr) : bool :=
         match l with
         | [] => true
         | (k, v) :: l' =>
             (if existsb (str_eqb k) seen then true
              else match dict_get k kv' with
                   | Some v' => py_eq v v'
                   | None => false
                   end)
             && live l' (k :: seen)
         end) kv []
      && forallb (fun k => has_key k kv) (keys kv')
  | _, _ => false
  end.

(** What a [for x in v] loop runs over. *)
Definition iter_items (v : json) : result (list json) :=
  match v with
  | JArr l => Ok l
  | JObj kv => Ok (map JStr (keys kv))
  | JStr s => Ok (map (fun c => JStr [c]) s)
  | _ => Raise TypeError
  end.

(** [v[:n]] for [n >= 0]: defined on strings and lists only. *)
Definition py_slice_to (v : json) (n : nat) : result json :=
  match v with
  | JStr s => Ok (JStr (firstn n s))
  | JArr l => Ok (JArr (firstn n l))
  | _ => Raise TypeError
  end.

End Json.
Export Json.

(** ** The Python runtime

    Three facilities of the interpreter are tables or printers too large to
    spell out, and the error handler of the standard output depends on how
    the process is started.  They are the fields of a [Runtime]; every
    definition below takes one, and the theorems about the program hold for
    all of them. *)

Module Py.

Record Runtime := {
  (** [_PyUnicode_ToLowerFull] on the code points [to_lower_full] does not
      list *)
  to_lower_other : N -> list N;
  (** the final-sigma test of [handle_capital_sigma] at index [i] of [s] *)
  final_sigma : pystr -> nat -> bool;
  (** [str(v)] for a list or a dict *)
  repr_container : json -> pystr;
  (** the error handler of [sys.stdout] is [surrogateescape] (as under the
      C locale) and not [strict] *)
  surrogateescape : bool
}.

Section WithRuntime.
Variable RT : Runtime.

(** The full lowercase mapping of one code point.  Listed here: Basic Latin,
    U+0130 (capital I with dot above: its lowercase is two code points),
    capital sigma (simple mapping), the Hangul syllables and U+1F916. *)
Definition to_lower_full (c : N) : list N :=
  if ((0x41 <=? c) && (c <=? 0x5A))%N then [(c + 32)%N]
  else if (c <? 0x80)%N then [c]
  else if (c =? 0x130)%N then [0x69%N; 0x307%N]
  else if (c =? 0x3A3)%N then [0x3C3%N]
  else if ((0xAC00 <=? c) && (c <=? 0xD7A3))%N then [c]
  else if (c =? 0x1F916)%N then [c]
  else to_lower_other RT c.

(** [lower_ucs4]: capital sigma lowers by context, to U+03C2 or U+03C3. *)
Definition lower_ucs4 (s : pystr) (i : nat) (c : N) : list N :=
  if (c =? 0x3A3)%N then [if final_sigma RT s i then 0x3C2%N else 0x3C3%N]
  else to_lower_full c.

(** [do_lower] over the characters of [s] from index [i] on. *)
Fixpoint do_lower (s : pystr) (i : nat) (rest : pystr) : pystr :=
  match rest with
  | [] => []
  | c :: t => lower_ucs4 s i c ++ do_lower s (S i) t
  end.

(** [s.lower()] *)
Definition lower (s : pystr) : pystr := do_lower s 0 s.

(** [str(v)], as an f-string formats a value. *)
Definition py_str (v : json) : pystr :=
  match v with
  | JNull => utf8 "None"
  | JBool true => utf8 "True"
  | JBool false => utf8 "False"
  | JInt z => utf8 (DecimalString.NilEmpty.string_of_int (Z.to_int z))
  | JStr s => s
  | JArr _ | JObj _ => repr_container RT v
  end.

(** *** Printing *)

Definition is_surrogate (c : N) : bool := ((0xD800 <=? c) && (c <=? 0xDFFF))%N.

(** The code points the encoder of [sys.stdout] accepts: UTF-8 encodes all
    but the surrogates; [surrogateescape] lets U+DC80..U+DCFF through. *)
Definition encodable (c : N) : bool :=
  if is_surrogate c
  then surrogateescape RT && ((0xDC80 <=? c) && (c <=? 0xDCFF))%N
  else true.

(** Whether [str(v)] can be written: the [str] of [None], of a [bool] and of
    an [int] is ASCII, and that of a list or a dict is a [repr], which
    escapes the surrogates. *)
Definition printable (v : json) : bool :=
  match v with
  | JStr s => forallb encodable s
  | _ => true
  end.

(** [print(f"...{v1}...{v2}...")]: the literal parts of the f-strings of
    [mr.py] encode. *)
Definition py_print (values : list json) : result unit :=
  if forallb printable values then Ok tt else Raise UnicodeEncodeError.

End WithRuntime.

End Py.
Export Py.

(** ** Raising computations *)

Definition bind_result {A B} (r : result A) (k : A -> result B) : result B :=
  match r with
  | Ok a => k a
  | Raise e => Raise e
  end.

Notation "x <-' e ;; k" := (bind_result e (fun x => k))
  (at level 61, e at next level, right associativity).

(** [d.get(k, default)] on a dict the program built itself. *)
Definition get_default (kv : list (pystr * json)) (k : pystr) (default : json)
  : json :=
  match dict_get k kv with Some v => v | None => default end.

(** [if user_prompt:] is false for [None] and for the empty string. *)
Definition prompt_given (user_prompt : option pystr) : option pystr :=
  match user_prompt with
  | Some (c :: s) => Some (c :: s)
  | _ => None
  end.

(** ** The prompt of [analyze_with_gemini] (lines 114-163) *)

Module AnalyzeWithGemini.
Section WithRuntime.
Variable RT : Runtime.

Definition opening : pystr := Eval vm_compute in
  utf8 "    다음 GitLab Merge Request의 코드 변경 사항을 시니어 개발자가 해준다는 느낌으로 분석하고 리뷰해주세요:".

Definition header (mr_info : list (pystr * json)) : pystr :=
  nl ++ opening ++ nl
  ++ utf8 "    " ++ nl
  ++ utf8 "    MR 제목: "
  ++ py_str RT (get_default mr_info (utf8 "title") (JStr (utf8 "제목 없음"))) ++ nl
  ++ utf8 "    MR 설명: "
  ++ py_str RT (get_default mr_info (utf8 "description") (JStr (utf8 "설명 없음"))) ++ nl
  ++ utf8 "    ".

Definition user_request (user_prompt : pystr) : pystr :=
  nl ++ utf8 "    사용자 요청: " ++ user_prompt ++ nl ++ utf8 "    ".

Definition files_heading : pystr :=
  nl ++ utf8 "    변경된 파일:" ++ nl ++ utf8 "    ".

Definition code_extensions : list pystr :=
  map utf8 [".py"; ".js"; ".java"; ".cpp"; ".c"; ".h"; ".cs"; ".go"; ".rb";
            ".php"; ".ts"; ".kt"; ".swift"]%string.

(** One turn of the loop over the changes. *)
Definition add_change (prompt : pystr) (change : json) : result pystr :=
  old_path <-' py_get change (utf8 "old_path") (JStr (utf8 "알 수 없는 파일")) ;;
  file_path <-' py_get change (utf8 "new_path") old_path ;;
  match file_path with
  | JStr p =>
      let file_ext := lower RT (snd (splitext p)) in
      if negb (existsb (str_eqb file_ext) code_extensions) then Ok prompt
      else
        let prompt := prompt ++ (nl ++ nl ++ utf8 "파일: " ++ p ++ nl) in
        diff <-' py_get change (utf8 "diff") (JStr (utf8 "변경사항 없음")) ;;
        Ok (prompt ++ (utf8 "변경사항:" ++ nl ++ py_str RT diff ++ nl))
  | _ => Raise TypeError
  end.

Fixpoint add_changes (prompt : pystr) (changes : list json) : result pystr :=
  match changes with
  | [] => Ok prompt
  | change :: rest =>
      prompt <-' add_change prompt change ;;
      add_changes prompt rest
  end.

Definition closing : pystr :=
  nl ++ utf8 "    위 코드 변경사항에 대하여" ++ nl
  ++ utf8 "    코드 품질, 잠재적 문제점, 성능 고려사항, 개선 제안" ++ nl
  ++ utf8 "    을 간략하게 대략 500 ~ 700자 안으로 구체적인 코드 부분과 함께 분석해주세요." ++ nl
  ++ utf8 "    ".

Definition build_prompt (changes_data : json) (mr_info : list (pystr * json))
    (user_prompt : option pystr) : result pystr :=
  let prompt := header mr_info in
  let prompt :=
    match prompt_given user_prompt with
    | Some u => prompt ++ user_request u
    | None => prompt
    end in
  let prompt := prompt ++ files_heading in
  changes <-' py_get changes_data (utf8 "changes") (JArr []) ;;
  items <-' iter_items changes ;;
  prompt <-' add_changes prompt items ;;
  Ok (prompt ++ closing).

End WithRuntime.
End AnalyzeWithGemini.

(** ** The prompt of [analyze_with_gemini_for_comment] (lines 191-239) *)

Module AnalyzeWithGeminiForComment.
Section WithRuntime.
Variable RT : Runtime.

Definition opening : pystr := Eval vm_compute in
  utf8 "    다음 GitLab Merge Request의 코드 변경 사항 중 제가 원하는 부분만 시니어 개발자가 해준다는 느낌으로 분석하고 리뷰해주세요:".

Definition header (mr_info : list (pystr * json)) : pystr :=
  nl ++ opening ++ nl
  ++ utf8 "    " ++ nl
  ++ utf8 "    MR 제목: "
  ++ py_str RT (get_default mr_info (utf8 "title") (JStr (utf8 "제목 없음"))) ++ nl
  ++ utf8 "    MR 설명: "
  ++ py_str RT (get_default mr_info (utf8 "description") (JStr (utf8 "설명 없음"))) ++ nl
  ++ utf8 "    ".

Definition user_request (user_prompt : pystr) : pystr :=
  nl ++ utf8 "    사용자 요청: " ++ user_prompt ++ nl ++ utf8 "    ".

Definition files_heading : pystr :=
  nl ++ utf8 "    변경된 파일:" ++ nl ++ utf8 "    ".

Definition code_extensions : list pystr :=
  map utf8 [".py"; ".js"; ".java"; ".cpp"; ".c"; ".h"; ".cs"; ".go"; ".rb";
            ".php"; ".ts"; ".kt"; ".swift"]%string.

Definition add_change (prompt : pystr) (change : json) : result pystr :=
  old_path <-' py_get change (utf8 "old_path") (JStr (utf8 "알 수 없는 파일")) ;;
  file_path <-' py_get change (utf8 "new_path") old_path ;;
  match file_path with
  | JStr p =>
      let file_ext := lower RT (snd (splitext p)) in
      if negb (existsb (str_eqb file_ext) code_extensions) then Ok prompt
      else
        let prompt := prompt ++ (nl ++ nl ++ utf8 "파일: " ++ p ++ nl) in
        diff <-' py_get change (utf8 "diff") (JStr (utf8 "변경사항 없음")) ;;
        Ok (prompt ++ (utf8 "변경사항:" ++ nl ++ py_str RT diff ++ nl))
  | _ => Raise TypeError
  end.

Fixpoint add_changes (prompt : pystr) (changes : list json) : result pystr :=
  match changes with
  | [] => Ok prompt
  | change :: rest =>
      prompt <-' add_change prompt change ;;
      add_changes prompt rest
  end.

Definition closing : pystr :=
  nl ++ utf8 "    위 코드 변경사항에 제가 원하는 부분을을" ++ nl
  ++ utf8 "    간략하게 대략 300자 안으로 분석해주세요." ++ nl
  ++ utf8 "    ".

Definition build_prompt (changes_data : json) (mr_info : list (pystr * json))
    (user_prompt : option pystr) : result pystr :=
  let prompt := header mr_info in
  let prompt :=
    match prompt_given user_prompt with
    | Some u => prompt ++ user_request u
    | None => prompt
    end in
  let prompt := prompt ++ files_heading in
  changes <-' py_get changes_data (utf8 "changes") (JArr []) ;;
  items <-' iter_items changes ;;
  prompt <-' add_changes prompt items ;;
  Ok (prompt ++ closing).

End WithRuntime.
End AnalyzeWithGeminiForComment.

(** ** The outside world and the trace of a run *)

Module Effects.

(** What [requests.get] / [requests.post] does: raise, or return a response
    with a status code and a body ([None] when [response.json()] raises). *)
Inductive http_reply :=
| Timeout
| RequestError
| Response (status_code : Z) (body : option json).

(** What [model.generate_content(prompt)] followed by [response.text] does:
    the text, or an exception with its message [str(e)]. *)
Inductive generation :=
| Generated (text : pystr)
| GenerationError (message : pystr).

Record World := {
  changes_reply : json -> json -> http_reply;
  merge_requests_reply : json -> http_reply;
  merge_request_reply : json -> json -> http_reply;
  notes_reply : json -> json -> pystr -> http_reply;
  generate_content : pystr -> generation
}.

(** [requests.get(...)] / [requests.post(...)] *)
Definition requests (reply : http_reply) : result (Z * option json) :=
  match reply with
  | Timeout => Raise RequestsTimeout
  | RequestError => Raise RequestsError
  | Response status_code body => Ok (status_code, body)
  end.

(** [response.json()] *)
Definition response_json (body : option json) : result json :=
  match body with
  | Some v => Ok v
  | None => Raise JSONDecodeError
  end.

(** The log lines that report a decision (progress and timing lines are
    left out). *)
Inductive log_line :=
| LogSkippedAction (action : json)       (* line 306 *)
| LogNoChanges                            (* lines 322 and 455 *)
| LogNotMergeRequest                      (* line 407 *)
| LogBotComment                           (* line 420 *)
| LogPrompt (user_prompt : pystr)         (* line 434 *)
| LogSimplePrompt (user_prompt : pystr)   (* line 444 *)
| LogNoCommand.                           (* line 500 *)

Inductive event :=
| GetChanges (project_id mr_iid : json)
| ListMergeRequests (project_id : json)
| GetMergeRequest (project_id mr_iid : json)
| GenerateContent (prompt : pystr)
| PostNote (project_id mr_iid : json) (body : pystr)
| Log (line : log_line).

(** A run: the events so far and how the computation ended. *)
Definition M (A : Type) : Type := list event * result A.

Definition ret {A} (a : A) : M A := ([], Ok a).

Definition bind {A B} (m : M A) (k : A -> M B) : M B :=
  match m with
  | (t, Ok a) => let (t', r) := k a in (t ++ t', r)
  | (t, Raise e) => (t, Raise e)
  end.

Definition emit (e : event) : M unit := ([e], Ok tt).

Definition lift {A} (r : result A) : M A := ([], r).

(** [try: m except Exception: h] *)
Definition try_except {A} (m : M A) (h : M A) : M A :=
  match m with
  | (t, Ok a) => (t, Ok a)
  | (t, Raise _) => let (t', r) := h in (t ++ t', r)
  end.

(** [try: m except E1: h1 except Exception as e: h2]: the handler is chosen
    by the exception, and what a handler raises is not caught. *)
Definition try_catch {A} (m : M A) (h : exn -> M A) : M A :=
  match m with
  | (t, Ok a) => (t, Ok a)
  | (t, Raise e) => let (t', r) := h e in (t ++ t', r)
  end.

Definition trace {A} (m : M A) : list event := fst m.
Definition outcome {A} (m : M A) : result A := snd m.

End Effects.
Export Effects.

Notation "x <- e ;; k" := (bind e (fun x => k))
  (at level 61, e at next level, right associativity).
Notation "e ;;; k" := (bind e (fun _ => k))
  (at level 61, right associativity).

(** ** The bot *)

Module Bot.
Section WithRuntime.
Variable RT : Runtime.

Definition BOT_SIGNATURE : pystr := Eval vm_compute in utf8 "🤖 AI 코드 리뷰".

(** A [print] that reports a decision: the line is recorded once it is
    written. *)
Definition log (line : log_line) (values : list json) : M unit :=
  lift (py_print RT values) ;;;
  emit (Log line).

(** [get_mr_changes] (lines 35-62): the decoded body on HTTP 200, [None] on
    any other status and on any exception.  The handler of a timeout prints
    the project and the merge request (line 58). *)
Definition get_mr_changes (w : World) (project_id mr_iid : json) : M json :=
  try_catch
    (emit (GetChanges project_id mr_iid) ;;;
     response <- lift (requests (changes_reply w project_id mr_iid)) ;;
     if negb (fst response =? 200)%Z then ret JNull
     else lift (response_json (snd response)))
    (fun e =>
       match e with
       | RequestsTimeout =>
           lift (py_print RT [project_id; mr_iid]) ;;;
           ret JNull
       | _ => ret JNull
       end).

(** The text both analysis functions return (lines 165-172 and 241-248):
    the generated text, or a message that embeds the exception. *)
Definition generated_text (w : World) (prompt : pystr) : pystr :=
  match generate_content w prompt with
  | Generated text => text
  | GenerationError e => utf8 "코드 분석 중 오류가 발생했습니다: " ++ e
  end.

(** The [try] block that ends both analysis functions; its handler prints
    the message of the exception (lines 170 and 246). *)
Definition generate (w : World) (prompt : pystr) : M pystr :=
  emit (GenerateContent prompt) ;;;
  match generate_content w prompt with
  | Generated text => ret text
  | GenerationError e =>
      lift (py_print RT [JStr e]) ;;;
      ret (utf8 "코드 분석 중 오류가 발생했습니다: " ++ e)
  end.

(** [analyze_with_gemini] (lines 98-172) *)
Definition analyze_with_gemini (w : World) (changes_data : json)
    (mr_info : list (pystr * json)) (user_prompt : option pystr) : M pystr :=
  prompt <- lift (AnalyzeWithGemini.build_prompt RT changes_data mr_info user_prompt) ;;
  generate w prompt.

(** [analyze_with_gemini_for_comment] (lines 175-248) *)
Definition analyze_with_gemini_for_comment (w : World) (changes_data : json)
    (mr_info : list (pystr * json)) (user_prompt : option pystr) : M pystr :=
  prompt <- lift (AnalyzeWithGeminiForComment.build_prompt RT changes_data mr_info
                    user_prompt) ;;
  generate w prompt.

(** [post_comment_to_mr] (lines 251-293): [True] on HTTP 200 or 201.  The
    URL, which holds the project and the merge request, is printed before
    the [try] (line 267); the handler of a timeout prints them again
    (line 289). *)
Definition post_comment_to_mr (w : World) (project_id mr_iid : json)
    (comment : pystr) : M bool :=
  lift (py_print RT [project_id; mr_iid]) ;;;
  try_catch
    (emit (PostNote project_id mr_iid comment) ;;;
     response <- lift (requests (notes_reply w project_id mr_iid comment)) ;;
     if negb (existsb (Z.eqb (fst response)) [200; 201]%Z) then ret false
     else ret true)
    (fun e =>
       match e with
       | RequestsTimeout =>
           lift (py_print RT [project_id; mr_iid]) ;;;
           ret false
       | _ => ret false
       end).

Definition git_link : pystr :=
  utf8 "[Git](https://github.com/PMRAZOR/Gitlab-MR-Review-Bot)*".

(** The comment of the full review (lines 335-342). *)
Definition review_comment (analysis_result : pystr) : pystr :=
  nl ++ utf8 "## " ++ BOT_SIGNATURE ++ nl
  ++ nl
  ++ analysis_result ++ nl
  ++ nl
  ++ utf8 "---" ++ nl
  ++ utf8 "*이 리뷰는 자동으로 생성되었습니다. " ++ git_link ++ nl.

(** Lines 325-353: the review of the fetched changes. *)
Definition review_changes (w : World) (mr_attrs project_id mr_iid changes_data : json)
  : M unit :=
  title <- lift (py_get mr_attrs (utf8 "title") (JStr [])) ;;
  description <- lift (py_get mr_attrs (utf8 "description") (JStr [])) ;;
  let mr_info := [(utf8 "title", title); (utf8 "description", description)] in
  analysis_result <- analyze_with_gemini w changes_data mr_info None ;;
  let comment := review_comment analysis_result in
  success <- post_comment_to_mr w project_id mr_iid comment ;;
  lift (py_print RT [mr_iid]) ;;;                              (* lines 349, 351 *)
  lift (py_print RT [project_id; mr_iid]).                     (* line 353 *)

(** [process_mr_in_background] (lines 296-353) *)
Definition process_mr_in_background (w : World) (data : json) : M unit :=
  object_attributes <- lift (py_get data (utf8 "object_attributes") (JObj [])) ;;
  action <- lift (py_get object_attributes (utf8 "action") JNull) ;;
  if negb (existsb (py_eq action) [JStr (utf8 "open"); JStr (utf8 "update")])
  then log (LogSkippedAction action) [action]                  (* line 306 *)
  else
    mr_attrs <- lift (py_get data (utf8 "object_attributes") (JObj [])) ;;
    project_id <- lift (py_get mr_attrs (utf8 "target_project_id") JNull) ;;
    mr_iid <- lift (py_get mr_attrs (utf8 "iid") JNull) ;;
    lift (py_print RT [project_id; mr_iid]) ;;;                (* line 314 *)
    changes_data <- get_mr_changes w project_id mr_iid ;;
    if negb (truthy changes_data) then log LogNoChanges [mr_iid]   (* line 322 *)
    else review_changes w mr_attrs project_id mr_iid changes_data.

(** *** Notes: the command in a comment *)

Definition command_triggers : list pystr :=
  map utf8 ["@bot"; "/review"; "/analyze"]%string.

Definition simple_triggers : list pystr :=
  map utf8 ["코드리뷰"; "코드 리뷰"; "리뷰"]%string.

(** The loop over [command_triggers] (lines 427-435): the value of
    [user_prompt] after it. *)
Fixpoint scan_command_triggers (note_body : pystr) (triggers : list pystr)
  : option pystr :=
  match triggers with
  | [] => None
  | trigger :: rest =>
      if contains trigger (lower RT note_body) then
        let trigger_index := find trigger (lower RT note_body) in
        if negb (trigger_index =? -1)%Z then
          Some (strip (slice_from note_body (trigger_index + len trigger)))
        else scan_command_triggers note_body rest
      else scan_command_triggers note_body rest
  end.

(** The loop over [simple_triggers] (lines 440-445). *)
Fixpoint scan_simple_triggers (note_body : pystr) (triggers : list pystr)
  : option pystr :=
  match triggers with
  | [] => None
  | trigger :: rest =>
      if contains trigger (lower RT note_body) then Some (strip note_body)
      else scan_simple_triggers note_body rest
  end.

(** The user prompt a comment body yields (lines 423-445). *)
Definition extract_user_prompt (note_body : pystr) : option pystr :=
  match scan_command_triggers note_body command_triggers with
  | Some user_prompt => Some user_prompt
  | None => scan_simple_triggers note_body simple_triggers
  end.

(** The same lines as the handler runs them: on whatever [note] holds, and
    with the prints of the extracted prompt (lines 434 and 444). *)
Definition user_prompt_of_note (note_body : json) : M (option pystr) :=
  match note_body with
  | JStr body =>
      match scan_command_triggers body command_triggers with
      | Some user_prompt =>
          log (LogPrompt user_prompt) [JStr user_prompt] ;;;
          ret (Some user_prompt)
      | None =>
          match scan_simple_triggers body simple_triggers with
          | Some user_prompt =>
              log (LogSimplePrompt user_prompt) [JStr user_prompt] ;;;
              ret (Some user_prompt)
          | None => ret None
          end
      end
  | _ => lift (Raise AttributeError)
  end.

(** [sub in v] for a string [sub]. *)
Definition py_in (sub : pystr) (v : json) : result bool :=
  match v with
  | JStr s => Ok (contains sub s)
  | JArr l => Ok (existsb (py_eq (JStr sub)) l)
  | JObj kv => Ok (has_key sub kv)
  | _ => Raise TypeError
  end.

(** The loop of the third lookup (lines 394-397): [mr_iid] after it. *)
Fixpoint find_iid (mrs : list json) (noteable_id : json) : result json :=
  match mrs with
  | [] => Ok JNull
  | mr :: rest =>
      id <-' py_get mr (utf8 "id") JNull ;;
      if py_eq id noteable_id then py_get mr (utf8 "iid") JNull
      else find_iid rest noteable_id
  end.

(** The third lookup (lines 385-399): list the merge requests of the project
    and match the internal id; any exception leaves [mr_iid] at [None]. *)
Definition lookup_iid (w : World) (project_id noteable_id : json) : M json :=
  try_except
    (emit (ListMergeRequests project_id) ;;;
     response <- lift (requests (merge_requests_reply w project_id)) ;;
     if (fst response =? 200)%Z then
       mrs <- lift (response_json (snd response)) ;;
       items <- lift (iter_items mrs) ;;
       lift (find_iid items noteable_id)
     else ret JNull)
    (ret JNull).

(** Lines 375-399. *)
Definition resolve_mr_iid (w : World) (data note project_id noteable_type
    noteable_id : json) : M json :=
  if py_eq noteable_type (JStr (utf8 "MergeRequest")) then
    mr_iid <- lift (py_get note (utf8 "noteable_iid") JNull) ;;
    mr_iid <-
      (if is_none mr_iid then
         nested <- lift (py_in (utf8 "merge_request") data) ;;
         if nested then
           merge_request <- lift (py_get data (utf8 "merge_request") (JObj [])) ;;
           lift (py_get merge_request (utf8 "iid") JNull)
         else ret mr_iid
       else ret mr_iid) ;;
    if is_none mr_iid then lookup_iid w project_id noteable_id
    else ret mr_iid
  else ret JNull.

Definition default_mr_info : list (pystr * json) :=
  [(utf8 "title", JStr (utf8 "제목 없음"));
   (utf8 "description", JStr (utf8 "설명 없음"))].

(** Lines 461-474. *)
Definition get_mr_info (w : World) (project_id mr_iid : json)
  : M (list (pystr * json)) :=
  try_except
    (emit (GetMergeRequest project_id mr_iid) ;;;
     response <- lift (requests (merge_request_reply w project_id mr_iid)) ;;
     mr_data <-
       (if (fst response =? 200)%Z then lift (response_json (snd response))
        else ret (JObj [])) ;;
     title <- lift (py_get mr_data (utf8 "title") (JStr (utf8 "제목 없음"))) ;;
     description <-
       lift (py_get mr_data (utf8 "description") (JStr (utf8 "설명 없음"))) ;;
     ret [(utf8 "title", title); (utf8 "description", description)])
    (ret default_mr_info).

(** The comment posted when the changes cannot be fetched (line 456). *)
Definition no_changes_comment : pystr := Eval vm_compute in
  utf8 "변경 사항을 가져올 수 없어 코드 리뷰를 수행할 수 없습니다.".

(** The comment of a requested review (lines 483-490). *)
Definition requested_review_comment (analysis_result : pystr)
    (author_username : json) : pystr :=
  nl ++ utf8 "## " ++ BOT_SIGNATURE ++ utf8 " - 사용자 요청" ++ nl
  ++ nl
  ++ analysis_result ++ nl
  ++ nl
  ++ utf8 "---" ++ nl
  ++ utf8 "*이 리뷰는 @" ++ py_str RT author_username
  ++ utf8 "님의 요청에 의해 생성되었습니다. " ++ git_link ++ nl.

(** Lines 460-504: the review of the fetched changes, to the end of the
    handler. *)
Definition requested_review (w : World) (project_id mr_iid note_id
    author_username changes_data : json) (user_prompt : pystr) : M unit :=
  mr_info <- get_mr_info w project_id mr_iid ;;
  lift (py_print RT [mr_iid]) ;;;                              (* line 477 *)
  analysis_result <-
    analyze_with_gemini_for_comment w changes_data mr_info (Some user_prompt) ;;
  let comment := requested_review_comment analysis_result author_username in
  success <- post_comment_to_mr w project_id mr_iid comment ;;
  lift (py_print RT [project_id; mr_iid; note_id]).            (* lines 502-504 *)

(** Lines 448-504: the review a detected command starts. *)
Definition review_on_request (w : World) (project_id mr_iid note_id
    author_username : json) (user_prompt : pystr) : M unit :=
  changes_data <- get_mr_changes w project_id mr_iid ;;
  if negb (truthy changes_data) then
    log LogNoChanges [mr_iid] ;;;                              (* line 455 *)
    post_comment_to_mr w project_id mr_iid no_changes_comment ;;;
    ret tt
  else
    requested_review w project_id mr_iid note_id author_username changes_data
      user_prompt.

(** [process_note_in_background] (lines 356-504) *)
Definition process_note_in_background (w : World) (data : json) : M unit :=
  note <- lift (py_get data (utf8 "object_attributes") (JObj [])) ;;
  note_id <- lift (py_get note (utf8 "id") JNull) ;;
  note_body <- lift (py_get note (utf8 "note") (JStr [])) ;;
  project <- lift (py_get data (utf8 "project") (JObj [])) ;;
  project_id <- lift (py_get project (utf8 "id") JNull) ;;
  noteable_type <- lift (py_get note (utf8 "noteable_type") JNull) ;;
  noteable_id <- lift (py_get note (utf8 "noteable_id") JNull) ;;
  mr_iid <- resolve_mr_iid w data note project_id noteable_type noteable_id ;;
  lift (py_print RT [project_id; noteable_type; noteable_id; mr_iid; note_id]) ;;;
                                                               (* lines 401-403 *)
  if negb (py_eq noteable_type (JStr (utf8 "MergeRequest"))) || is_none mr_iid
  then log LogNotMergeRequest [noteable_type; mr_iid]          (* lines 407-409 *)
  else
    author <- lift (py_get data (utf8 "user") (JObj [])) ;;
    author_username <- lift (py_get author (utf8 "username") (JStr [])) ;;
    shown <- lift (py_slice_to note_body 100) ;;
    lift (py_print RT [author_username; shown]) ;;;            (* line 416 *)
    bot_comment <- lift (py_in BOT_SIGNATURE note_body) ;;
    if bot_comment then emit (Log LogBotComment)
    else
      user_prompt <- user_prompt_of_note note_body ;;
      match user_prompt with
      | Some user_prompt =>
          review_on_request w project_id mr_iid note_id author_username user_prompt
      | None =>
          shown <- lift (py_slice_to note_body 50) ;;
          log LogNoCommand [shown] ;;;                         (* line 500 *)
          lift (py_print RT [project_id; mr_iid; note_id])     (* lines 502-504 *)
      end.

(** *** The webhook endpoint (lines 521-592) *)

(** The methods Flask passes to the view of a route declared for POST and
    GET. *)
Inductive http_method := GET | HEAD | POST.

Record request := {
  method : http_method;
  (** [request.json]: [None] when reading it raises *)
  request_json : option json
}.

Record reply := {
  status : pystr;
  message : pystr;
  code : Z
}.

(** [threading.Thread(target=..., args=(data,)).start()] *)
Inductive thread :=
| ProcessMr (data : json)
| ProcessNote (data : json).

Definition gitlab_webhook (req : request) : result (reply * list thread) :=
  match method req with
  | GET =>
      Ok ({| status := utf8 "success";
             message := utf8 "Webhook endpoint is active";
             code := 200 |}, [])
  | _ =>
      match request_json req with
      | None =>
          Ok ({| status := utf8 "error";
                 message := utf8 "잘못된 JSON 형식";
                 code := 400 |}, [])
      | Some data =>
          object_kind <-' py_get data (utf8 "object_kind") (JStr (utf8 "알 수 없음")) ;;
          _ <-' py_print RT [object_kind] ;;                   (* line 547 *)
          if py_eq object_kind (JStr (utf8 "merge_request")) then
            Ok ({| status := utf8 "accepted";
                   message := utf8 "MR 요청이 접수되었습니다. 백그라운드에서 처리됩니다.";
                   code := 202 |}, [ProcessMr data])
          else if py_eq object_kind (JStr (utf8 "note")) then
            Ok ({| status := utf8 "accepted";
                   message := utf8 "노트 요청이 접수되었습니다. 백그라운드에서 처리됩니다.";
                   code := 202 |}, [ProcessNote data])
          else
            _ <-' py_print RT [object_kind] ;;                 (* line 583 *)
            Ok ({| status := utf8 "ignored";
                   message := utf8 "처리하지 않는 이벤트 유형: " ++ py_str RT object_kind;
                   code := 200 |}, [])
      end
  end.

(** What a started thread runs. *)
Definition run_thread (w : World) (t : thread) : M unit :=
  match t with
  | ProcessMr data => process_mr_in_background w data
  | ProcessNote data => process_note_in_background w data
  end.

End WithRuntime.
End Bot.
Export Bot.

Unset Implicit Arguments.

(** * The vocabulary of the properties *)

(** ** Inputs of the closed examples *)

Module Sample.

(** A runtime for the examples: a code point outside the listed ones lowers
    to itself, no sigma is final, a container prints as an ellipsis, and the
    standard output is strict.  The examples use listed code points only
    and print no container. *)
Definition runtime : Runtime := {|
  to_lower_other := fun c => [c];
  final_sigma := fun _ _ => false;
  repr_container := fun _ => utf8 "...";
  surrogateescape := false
|}.

Definition str (s : string) : json := JStr (utf8 s).

Definition obj (l : list (string * json)) : json :=
  JObj (map (fun kv => (utf8 (fst kv), snd kv)) l).

(** A note hook for a comment on merge request 3 of project 7. *)
Definition note_event (body : string) : json :=
  obj [("object_kind", str "note");
       ("user", obj [("username", str "dev")]);
       ("project", obj [("id", JInt 7)]);
       ("object_attributes",
        obj [("id", JInt 100); ("note", str body);
             ("noteable_type", str "MergeRequest");
             ("noteable_iid", JInt 3)])]%string.

(** A merge request hook for merge request 3 of project 7. *)
Definition mr_event (action : string) : json :=
  obj [("object_kind", str "merge_request");
       ("object_attributes",
        obj [("action", str action); ("target_project_id", JInt 7);
             ("iid", JInt 3); ("title", str "Add parser");
             ("description", str "Parses the header")])]%string.

Definition changes : json :=
  obj [("changes",
        JArr [obj [("old_path", str "README.md"); ("new_path", str "README.md");
                   ("diff", str "+hello")];
              obj [("old_path", str "main.go"); ("new_path", str "main.go");
                   ("diff", str "+func main() {}")]])]%string.

(** GitLab and the generation service answer. *)
Definition world_up : World := {|
  changes_reply := fun _ _ => Response 200 (Some changes);
  merge_requests_reply := fun _ => Response 200 (Some (JArr []));
  merge_request_reply := fun _ _ =>
    Response 200 (Some (obj [("title", str "Add parser");
                             ("description", str "Parses the header")]%string));
  notes_reply := fun _ _ _ => Response 201 (Some (JObj []));
  generate_content := fun _ => Generated (utf8 "LGTM")
|}.

(** The request for the changes times out; everything else answers. *)
Definition world_no_changes : World := {|
  changes_reply := fun _ _ => Timeout;
  merge_requests_reply := merge_requests_reply world_up;
  merge_request_reply := merge_request_reply world_up;
  notes_reply := notes_reply world_up;
  generate_content := generate_content world_up
|}.

End Sample.

(** ** Runs of the handlers *)

(** The comment body of a note hook, as the handler reads it. *)
Definition note_body_of (data : json) : option json :=
  match py_get data (utf8 "object_attributes") (JObj []) with
  | Ok note =>
      match py_get note (utf8 "note") (JStr []) with
      | Ok note_body => Some note_body
      | Raise _ => None
      end
  | Raise _ => None
  end.

(** The events of a run before the handler looks at the comment: the lookup
    of the merge request, and the log line of a hook it does not handle. *)
Definition early (e : event) : Prop :=
  match e with
  | ListMergeRequests _ | Log LogNotMergeRequest => True
  | _ => False
  end.

(** The events of a run that stops before any review: the early ones and the
    log line of the reason.  No prompt extracted, no changes fetched, nothing
    generated, nothing posted. *)
Definition quiet (e : event) : Prop :=
  match e with
  | ListMergeRequests _ => True
  | Log LogNotMergeRequest | Log LogBotComment | Log LogNoCommand => True
  | _ => False
  end.

(** The log line of an extracted prompt, and the loop it comes from. *)
Definition prompt_log (RT : Runtime) (body : pystr) (e : event) (p : pystr) : Prop :=
  (scan_command_triggers RT body command_triggers = Some p
   /\ e = Log (LogPrompt p))
  \/ (scan_command_triggers RT body command_triggers = None
      /\ scan_simple_triggers RT body simple_triggers = Some p
      /\ e = Log (LogSimplePrompt p)).

(** The comments a run sends to the notes endpoint, in order. *)
Fixpoint posted (t : list event) : list (json * json * pystr) :=
  match t with
  | [] => []
  | PostNote project_id mr_iid body :: t' => (project_id, mr_iid, body) :: posted t'
  | _ :: t' => posted t'
  end.

(** What [get_mr_changes] returns in a world, when it returns. *)
Definition fetched (w : World) (project_id mr_iid : json) : json :=
  match changes_reply w project_id mr_iid with
  | Response status_code (Some v) => if (status_code =? 200)%Z then v else JNull
  | _ => JNull
  end.

(** The title and the description [get_mr_info] returns in a world. *)
Definition fetched_info (w : World) (project_id mr_iid : json)
  : list (pystr * json) :=
  match outcome (get_mr_info w project_id mr_iid) with
  | Ok mr_info => mr_info
  | Raise _ => default_mr_info
  end.

(** The prompt of the review a merge request hook starts (lines 326-332):
    title and description are read off the hook, an absent one is the empty
    string. *)
Definition mr_prompt (RT : Runtime) (mr_attrs changes_data : json)
  : result pystr :=
  title <-' py_get mr_attrs (utf8 "title") (JStr []) ;;
  description <-' py_get mr_attrs (utf8 "description") (JStr []) ;;
  AnalyzeWithGemini.build_prompt RT changes_data
    [(utf8 "title", title); (utf8 "description", description)] None.

(** The generation returns a text: the generated one, or the message of the
    failure once the handler has printed it. *)
Definition generation_printable (RT : Runtime) (w : World) (prompt : pystr)
  : bool :=
  match generate_content w prompt with
  | Generated _ => true
  | GenerationError e => printable RT (JStr e)
  end.

Definition k_MergeRequest : json := JStr (utf8 "MergeRequest").

(** A note hook on a merge request, as the handler reads it: a comment
    [note_body] by [author_username] on the merge request [mr_iid] of
    [project_id], which the handler resolves with the events [lookup] (by
    one of its three lookups), and fields that can be printed. *)
Definition note_hook (RT : Runtime) (w : World) (data note_body project_id mr_iid
    author_username : json) (lookup : list event) : Prop :=
  exists note project author note_id noteable_id,
    py_get data (utf8 "object_attributes") (JObj []) = Ok note
    /\ py_get note (utf8 "id") JNull = Ok note_id
    /\ py_get note (utf8 "note") (JStr []) = Ok note_body
    /\ py_get data (utf8 "project") (JObj []) = Ok project
    /\ py_get project (utf8 "id") JNull = Ok project_id
    /\ py_get note (utf8 "noteable_type") JNull = Ok k_MergeRequest
    /\ py_get note (utf8 "noteable_id") JNull = Ok noteable_id
    /\ resolve_mr_iid w data note project_id k_MergeRequest noteable_id
       = (lookup, Ok mr_iid)
    /\ mr_iid <> JNull
    /\ py_get data (utf8 "user") (JObj []) = Ok author
    /\ py_get author (utf8 "username") (JStr []) = Ok author_username
    /\ forallb (printable RT)
         [project_id; noteable_id; mr_iid; note_id; author_username] = true.

(** ** Requests to the endpoint *)

(** A POST whose body decodes to [data]. *)
Definition post_of (data : json) : request :=
  {| method := POST; request_json := Some data |}.

(** [data.get("object_kind", ...)], as the endpoint reads it. *)
Definition object_kind_of (data : json) : result json :=
  py_get data (utf8 "object_kind") (JStr (utf8 "알 수 없음")).

(** The action of a merge request hook, as the handler reads it. *)
Definition mr_action (data : json) : result json :=
  object_attributes <-' py_get data (utf8 "object_attributes") (JObj []) ;;
  py_get object_attributes (utf8 "action") JNull.

Definition k_merge_request : json := JStr (utf8 "merge_request").
Definition k_note : json := JStr (utf8 "note").
Definition a_open : json := JStr (utf8 "open").
Definition a_update : json := JStr (utf8 "update").

(** ** Prompts *)

(** The path of a change record: [new_path] when present, otherwise
    [old_path] (and a fixed placeholder when both are missing). *)
Definition path_of (kv : list (pystr * json)) : json :=
  match dict_get (utf8 "new_path") kv with
  | Some v => v
  | None =>
      match dict_get (utf8 "old_path") kv with
      | Some v => v
      | None => JStr (utf8 "알 수 없는 파일")
      end
  end.

(** The lowercased extension of the path is in the allow-list. *)
Definition source_file (RT : Runtime) (p : pystr) : bool :=
  existsb (str_eqb (lower RT (snd (splitext p)))) AnalyzeWithGemini.code_extensions.

(** The section of a file: its path and its raw diff. *)
Definition file_section (RT : Runtime) (p : pystr) (kv : list (pystr * json))
  : pystr :=
  (nl ++ nl ++ utf8 "파일: " ++ p ++ nl)
  ++ (utf8 "변경사항:" ++ nl
      ++ py_str RT (get_default kv (utf8 "diff") (JStr (utf8 "변경사항 없음"))) ++ nl).

(** What one change record adds to the prompt. *)
Definition contribution (RT : Runtime) (change : json) : pystr :=
  match change with
  | JObj kv =>
      match path_of kv with
      | JStr p => if source_file RT p then file_section RT p kv else []
      | _ => []
      end
  | _ => []
  end.

(** A change record with a path: a JSON object whose path is a string. *)
Definition change_record (change : json) : Prop :=
  exists kv p, change = JObj kv /\ path_of kv = JStr p.

(** The prompt up to the heading of the changed files. *)
Definition prompt_head (RT : Runtime) (mr_info : list (pystr * json))
    (user_prompt : option pystr) : pystr :=
  (match prompt_given user_prompt with
   | Some u => AnalyzeWithGemini.header RT mr_info ++ AnalyzeWithGemini.user_request u
   | None => AnalyzeWithGemini.header RT mr_info
   end) ++ AnalyzeWithGemini.files_heading.

(** What the two prompts share: the title and the description, the user
    request when there is one, the heading of the files and the sections of
    the files. *)
Definition shared_info (RT : Runtime) (mr_info : list (pystr * json)) : pystr :=
  nl ++ utf8 "    " ++ nl
  ++ utf8 "    MR 제목: "
  ++ py_str RT (get_default mr_info (utf8 "title") (JStr (utf8 "제목 없음"))) ++ nl
  ++ utf8 "    MR 설명: "
  ++ py_str RT (get_default mr_info (utf8 "description") (JStr (utf8 "설명 없음")))
  ++ nl ++ utf8 "    ".

Definition shared_request (user_prompt : option pystr) : pystr :=
  match prompt_given user_prompt with
  | Some u => nl ++ utf8 "    사용자 요청: " ++ u ++ nl ++ utf8 "    "
  | None => []
  end.

Definition shared_heading : pystr :=
  nl ++ utf8 "    변경된 파일:" ++ nl ++ utf8 "    ".

Definition shared_part (RT : Runtime) (changes_data : json)
    (mr_info : list (pystr * json)) (user_prompt : option pystr) : result pystr :=
  changes <-' py_get changes_data (utf8 "changes") (JArr []) ;;
  items <-' iter_items changes ;;
  AnalyzeWithGemini.add_changes RT
    (shared_info RT mr_info ++ shared_request user_prompt ++ shared_heading) items.

(** ** Commands in a comment *)

(** The text that follows a trigger, read off the original body: [s] starts
    with [trigger] when its characters, each lowercased, spell it. *)
Fixpoint ci_startswith (RT : Runtime) (trigger s : pystr) : bool :=
  match trigger, s with
  | [], _ => true
  | _ :: _, [] => false
  | t :: trigger', c :: s' =>
      str_eqb (to_lower_full RT c) [t] && ci_startswith RT trigger' s'
  end.

(** The text of [body] after the first place where [trigger] stands,
    whatever its case. *)
Fixpoint text_following (RT : Runtime) (trigger body : pystr) : option pystr :=
  if ci_startswith RT trigger body then Some (skipn (List.length trigger) body)
  else match body with
       | [] => None
       | _ :: rest => text_following RT trigger rest
       end.

(** The prompt the specification describes for the command triggers: the
    trimmed text after the first trigger, in priority order, that stands in
    the body. *)
Fixpoint text_after_command (RT : Runtime) (body : pystr) (triggers : list pystr)
  : option pystr :=
  match triggers with
  | [] => None
  | trigger :: rest =>
      match text_following RT trigger body with
      | Some text => Some (strip text)
      | None => text_after_command RT body rest
      end
  end.

(** The characters of [body] before the first place where [trigger] stands
    (all of them when it stands nowhere). *)
Fixpoint text_before (RT : Runtime) (trigger body : pystr) : pystr :=
  if ci_startswith RT trigger body then []
  else match body with
       | [] => []
       | c :: rest => c :: text_before RT trigger rest
       end.

(** The character lowercases to one character. *)
Definition keeps_length (RT : Runtime) (c : N) : bool :=
  match to_lower_full RT c with
  | [_] => true
  | _ => false
  end.

Definition ascii_text (s : pystr) : Prop := Forall (fun c => (c < 0x80)%N) s.

(** A character that lowercases to itself, whatever stands around it. *)
Definition caseless (RT : Runtime) (c : N) : Prop :=
  c <> 0x3A3%N /\ to_lower_full RT c = [c].

(** A body that holds one of the simple phrases. *)
Definition has_simple_phrase (body : pystr) : Prop :=
  exists phrase, In phrase simple_triggers /\ contains phrase body = true.

(** A body in which no command trigger stands, whatever its case. *)
Definition no_command (RT : Runtime) (body : pystr) : Prop :=
  forall trigger, In trigger command_triggers ->
                  contains trigger (lower RT body) = false.

(** ** Further inputs and notions *)

Module Cases.

(** The generation service is down. *)
Definition world_generation_down : World := {|
  changes_reply := changes_reply Sample.world_up;
  merge_requests_reply := merge_requests_reply Sample.world_up;
  merge_request_reply := merge_request_reply Sample.world_up;
  notes_reply := notes_reply Sample.world_up;
  generate_content := fun _ => GenerationError (utf8 "429 quota exceeded")
|}.

(** The changes endpoint answers 200 with an empty object. *)
Definition world_empty_changes : World := {|
  changes_reply := fun _ _ => Response 200 (Some (JObj []));
  merge_requests_reply := merge_requests_reply Sample.world_up;
  merge_request_reply := merge_request_reply Sample.world_up;
  notes_reply := notes_reply Sample.world_up;
  generate_content := generate_content Sample.world_up
|}.

(** The attributes of [Sample.mr_event "open"]. *)
Definition mr_attrs : list (pystr * json) :=
  map (fun kv => (utf8 (fst kv), snd kv))
    [("action", Sample.str "open"); ("target_project_id", JInt 7);
     ("iid", JInt 3); ("title", Sample.str "Add parser");
     ("description", Sample.str "Parses the header")]%string.

(** A note hook for a comment on issue 3 of project 7. *)
Definition issue_note : json :=
  Sample.obj [("object_kind", Sample.str "note");
              ("user", Sample.obj [("username", Sample.str "dev")]);
              ("project", Sample.obj [("id", JInt 7)]);
              ("object_attributes",
               Sample.obj [("id", JInt 100); ("note", Sample.str "/review");
                           ("noteable_type", Sample.str "Issue");
                           ("noteable_id", JInt 55)])]%string.

(** A change record whose path is [null]. *)
Definition pathless_change : json :=
  Sample.obj [("new_path", JNull); ("diff", Sample.str "+x")]%string.

(** A note hook whose comment is [body], on merge request 3 of project 7. *)
Definition note_with (body : pystr) : json :=
  Sample.obj [("object_kind", Sample.str "note");
              ("user", Sample.obj [("username", Sample.str "dev")]);
              ("project", Sample.obj [("id", JInt 7)]);
              ("object_attributes",
               Sample.obj [("id", JInt 100); ("note", JStr body);
                           ("noteable_type", Sample.str "MergeRequest");
                           ("noteable_iid", JInt 3)])]%string.

(** A merge request hook with action open whose iid is a string that holds
    the lone surrogate U+D800. *)
Definition surrogate_mr_event : json :=
  Sample.obj [("object_kind", Sample.str "merge_request");
              ("object_attributes",
               Sample.obj [("action", Sample.str "open");
                           ("target_project_id", JInt 7);
                           ("iid", JStr [0xD800%N])])]%string.

End Cases.

(** The text both analysis functions return when the generation raises. *)
Definition generation_error_text (message : pystr) : pystr :=
  utf8 "코드 분석 중 오류가 발생했습니다: " ++ message.

(** The shortest of the simple phrases: the two others hold it. *)
Definition short_phrase : pystr := utf8 "리뷰".

(** The head of the prompt of [analyze_with_gemini_for_comment]. *)
Definition comment_prompt_head (RT : Runtime) (mr_info : list (pystr * json))
    (user_prompt : option pystr) : pystr :=
  (match prompt_given user_prompt with
   | Some u => AnalyzeWithGeminiForComment.header RT mr_info
               ++ AnalyzeWithGeminiForComment.user_request u
   | None => AnalyzeWithGeminiForComment.header RT mr_info
   end) ++ AnalyzeWithGeminiForComment.files_heading.

(** ** Three claims as the specification words them

    Each is refuted below at one input, and a statement close to it is
    proved. *)

(** C3 as the specification words it: no thread, no comment, and an answer
    of the 200/ignored class. *)
Definition C3_as_stated (RT : Runtime) (w : World) (data : json) : Prop :=
  forall action,
    object_kind_of data = Ok k_merge_request ->
    mr_action data = Ok action ->
    action <> a_open -> action <> a_update ->
    exists r,
      gitlab_webhook RT (post_of data) = Ok (r, [])
      /\ code r = 200%Z /\ status r = utf8 "ignored"
      /\ posted (trace (process_mr_in_background RT w data)) = [].

(** C5 as the specification words it, for one body: the whole trimmed body
    when no command stands in it, the text after [/review] when [/review]
    does. *)
Definition C5_as_stated (RT : Runtime) (body : pystr) : Prop :=
  (no_command RT body -> has_simple_phrase body ->
   extract_user_prompt RT body = Some (strip body))
  /\ (contains (utf8 "/review") (lower RT body) = true -> has_simple_phrase body ->
      exists text,
        text_following RT (utf8 "/review") body = Some text
        /\ extract_user_prompt RT body = Some (strip text)).

(** C9 as the specification words it: the prompts are a common text
    followed by the closing instruction of each variant (or both builders
    raise). *)
Definition C9_as_stated (RT : Runtime) (changes_data : json)
    (mr_info : list (pystr * json)) (user_prompt : option pystr) : Prop :=
  exists common : result pystr,
    AnalyzeWithGemini.build_prompt RT changes_data mr_info user_prompt
    = (c <-' common ;; Ok (c ++ AnalyzeWithGemini.closing))
    /\ AnalyzeWithGeminiForComment.build_prompt RT changes_data mr_info user_prompt
       = (c <-' common ;; Ok (c ++ AnalyzeWithGeminiForComment.closing)).

(** * Properties *)

(** ** The model on small inputs *)

Example splitext_source : splitext (utf8 "src/Main.GO") = (utf8 "src/Main", utf8 ".GO").
Proof. reflexivity. Qed.

Example splitext_dotfile : splitext (utf8 "conf.d/.py") = (utf8 "conf.d/.py", []).
Proof. reflexivity. Qed.

Example splitext_no_extension : splitext (utf8 "v1.2/Makefile") = (utf8 "v1.2/Makefile", []).
Proof. reflexivity. Qed.

Example strip_both_ends : strip (utf8 "  check this  ") = utf8 "check this".
Proof. reflexivity. Qed.

Example find_first : PyStr.find (utf8 "ab") (utf8 "xabab") = 1%Z.
Proof. reflexivity. Qed.

Example find_none : PyStr.find (utf8 "/review") (utf8 "review") = (-1)%Z.
Proof. reflexivity. Qed.

Example lower_latin RT : lower RT (utf8 "@Bot /REVIEW") = utf8 "@bot /review".
Proof. reflexivity. Qed.

Example lower_dotted_capital_i RT : lower RT [0x130%N] = [0x69%N; 0x307%N].
Proof. reflexivity. Qed.

Example lower_hangul RT : lower RT (utf8 "코드 리뷰") = utf8 "코드 리뷰".
Proof. reflexivity. Qed.

Example py_eq_bool_int : py_eq (JBool true) (JInt 1) = true.
Proof. reflexivity. Qed.

Example py_str_int RT : py_str RT (JInt (-42)) = utf8 "-42".
Proof. reflexivity. Qed.

(** ** Strings *)

Section StringFacts.

Lemma str_eqb_eq (a b : pystr) : str_eqb a b = true <-> a = b.
Proof.
  unfold str_eqb. destruct (list_eq_dec N.eq_dec a b); split; congruence.
Qed.

Lemma startswith_app (sub r : pystr) : startswith sub (sub ++ r) = true.
Proof.
  induction sub as [|a sub IH]; simpl; [reflexivity|].
  now rewrite N.eqb_refl, IH.
Qed.

Lemma startswith_inv (sub s : pystr) :
  startswith sub s = true -> exists r, s = sub ++ r.
Proof.
  revert s. induction sub as [|a sub IH]; intros s H.
  - now exists s.
  - destruct s as [|b s]; simpl in H; [discriminate|].
    apply andb_true_iff in H as [Hab H]. apply N.eqb_eq in Hab. subst b.
    destruct (IH _ H) as [r ->]. now exists r.
Qed.

Lemma contains_startswith (sub s : pystr) :
  startswith sub s = true -> contains sub s = true.
Proof. intros H. destruct s; simpl; now rewrite H. Qed.

Lemma contains_intro (sub a b : pystr) : contains sub (a ++ sub ++ b) = true.
Proof.
  induction a as [|c a IH].
  - simpl app. apply contains_startswith, startswith_app.
  - simpl. rewrite IH. apply orb_true_r.
Qed.

Lemma contains_inv (sub s : pystr) :
  contains sub s = true -> exists a b, s = a ++ sub ++ b.
Proof.
  induction s as [|c s IH]; intros H.
  - simpl in H. rewrite orb_false_r in H.
    destruct (startswith_inv _ _ H) as [r Hr]. now exists [], r.
  - simpl in H. apply orb_true_iff in H as [H|H].
    + destruct (startswith_inv _ _ H) as [r Hr]. now exists [], r.
    + destruct (IH H) as (a & b & ->). now exists (c :: a), b.
Qed.

Lemma contains_iff (sub s : pystr) :
  contains sub s = true <-> exists a b, s = a ++ sub ++ b.
Proof.
  split; [apply contains_inv|]. intros (a & b & ->). apply contains_intro.
Qed.

(** A string that contains [big] contains every part of [big]. *)
Lemma contains_part (sub big s : pystr) :
  contains sub big = true -> contains big s = true -> contains sub s = true.
Proof.
  intros H1 H2.
  apply contains_inv in H1 as (a & b & ->).
  apply contains_inv in H2 as (a' & b' & ->).
  apply contains_iff. exists (a' ++ a), (b ++ b').
  now rewrite <- !app_assoc.
Qed.

(** [find] answers [-1] exactly when there is no occurrence. *)
Lemma find_from_contains (sub s : pystr) (i : Z) :
  (0 <= i)%Z -> contains sub s = negb (find_from sub s i =? -1)%Z.
Proof.
  revert i. induction s as [|c s IH]; intros i Hi; simpl.
  - destruct (startswith sub []); simpl; [|reflexivity].
    symmetry. apply negb_true_iff, Z.eqb_neq. lia.
  - destruct (startswith sub (c :: s)); simpl.
    + symmetry. apply negb_true_iff, Z.eqb_neq. lia.
    + apply IH. lia.
Qed.

Lemma find_contains (sub s : pystr) :
  contains sub s = negb (find sub s =? -1)%Z.
Proof. apply find_from_contains. lia. Qed.

End StringFacts.

(** ** Lowercasing *)

Section LowerFacts.
Variable RT : Runtime.

Lemma do_lower_app (s x y : pystr) (k : nat) :
  do_lower RT s k (x ++ y)
  = do_lower RT s k x ++ do_lower RT s (k + List.length x) y.
Proof.
  revert k. induction x as [|c x IH]; intros k; cbn [do_lower app List.length].
  - now rewrite Nat.add_0_r.
  - rewrite IH, <- app_assoc. do 3 f_equal. lia.
Qed.

Lemma do_lower_caseless (s p : pystr) (k : nat) :
  Forall (caseless RT) p -> do_lower RT s k p = p.
Proof.
  intros H. revert k. induction H as [|c p [Hs Hc] _ IH]; intros k; [reflexivity|].
  cbn [do_lower]. unfold lower_ucs4.
  apply N.eqb_neq in Hs. rewrite Hs, Hc, IH. reflexivity.
Qed.

Lemma lower_keeps_caseless (p s : pystr) :
  Forall (caseless RT) p -> contains p s = true -> contains p (lower RT s) = true.
Proof.
  intros Hp H. apply contains_inv in H as (a & b & E).
  apply contains_iff. unfold lower. generalize s at 1. intros ctx. subst s.
  rewrite !do_lower_app, (do_lower_caseless _ _ _ Hp). eauto.
Qed.

Lemma lower_ucs4_one (s : pystr) (k : nat) (c : N) :
  keeps_length RT c = true ->
  exists x, lower_ucs4 RT s k c = [x]
            /\ forall t, (t < 0x80)%N ->
                         (t =? x)%N = str_eqb (to_lower_full RT c) [t].
Proof.
  unfold keeps_length, lower_ucs4. intros H.
  destruct (c =? 0x3A3)%N eqn:Hs.
  - apply N.eqb_eq in Hs. subst c.
    eexists. split; [reflexivity|]. intros t Ht.
    replace (to_lower_full RT 931) with [963%N] by reflexivity.
    transitivity false.
    + apply N.eqb_neq. destruct (final_sigma RT s k); lia.
    + symmetry. unfold str_eqb.
      destruct (list_eq_dec N.eq_dec [963%N] [t]) as [E|]; [|reflexivity].
      injection E as E. lia.
  - destruct (to_lower_full RT c) as [|x [|]]; try discriminate.
    exists x. split; [reflexivity|]. intros t _.
    unfold str_eqb. destruct (list_eq_dec N.eq_dec [x] [t]) as [E|E].
    + injection E as ->. apply N.eqb_refl.
    + apply N.eqb_neq. congruence.
Qed.

Lemma forallb_firstn {A} (f : A -> bool) (l : list A) (n : nat) :
  forallb f l = true -> forallb f (firstn n l) = true.
Proof.
  intros H. rewrite <- (firstn_skipn n l), forallb_app in H.
  now apply andb_true_iff in H.
Qed.

(** Where the characters under the trigger keep their length, the trigger
    starts the lowered text exactly when it stands at the start of the
    text. *)
Lemma startswith_lower (s trigger : pystr) :
  ascii_text trigger ->
  forall (rest : pystr) (k : nat),
    forallb (keeps_length RT) (firstn (List.length trigger) rest) = true ->
    startswith trigger (do_lower RT s k rest) = ci_startswith RT trigger rest.
Proof.
  induction 1 as [|t trigger Ht _ IH]; intros rest k Hk.
  - now destruct (do_lower RT s k rest).
  - destruct rest as [|c rest]; [reflexivity|].
    cbn [List.length firstn forallb] in Hk. apply andb_true_iff in Hk as [Hc Hk].
    cbn [do_lower ci_startswith].
    destruct (lower_ucs4_one s k c Hc) as (x & -> & Hx).
    cbn [app startswith]. rewrite (Hx t Ht), (IH rest (S k) Hk). reflexivity.
Qed.

Lemma ci_startswith_keeps (trigger : pystr) :
  forall rest : pystr,
    ci_startswith RT trigger rest = true ->
    forallb (keeps_length RT) (firstn (List.length trigger) rest) = true.
Proof.
  induction trigger as [|t trigger IH]; intros rest H; [reflexivity|].
  destruct rest as [|c rest]; [discriminate|].
  cbn [ci_startswith] in H. apply andb_true_iff in H as [Hc H].
  cbn [List.length firstn forallb]. apply andb_true_iff. split; [|now apply IH].
  apply str_eqb_eq in Hc. unfold keeps_length. now rewrite Hc.
Qed.

(** The characters before the first place of the trigger keep their length:
    so do those under the trigger, wherever it is tried up to that place. *)
Lemma kept_window (trigger : pystr) :
  forall rest : pystr,
    forallb (keeps_length RT) (text_before RT trigger rest) = true ->
    forallb (keeps_length RT) (firstn (List.length trigger) rest) = true.
Proof.
  induction rest as [|c rest IH]; intros H.
  - now rewrite firstn_nil.
  - destruct (ci_startswith RT trigger (c :: rest)) eqn:E;
      [now apply ci_startswith_keeps|].
    assert (Hb : text_before RT trigger (c :: rest)
                 = c :: text_before RT trigger rest).
    { cbn [text_before]. destruct trigger; [discriminate|].
      cbn [ci_startswith] in *. now rewrite E. }
    rewrite Hb in H. cbn [forallb] in H. apply andb_true_iff in H as [Hc Hr].
    destruct trigger as [|t trigger]; [reflexivity|].
    cbn [List.length firstn forallb]. apply andb_true_iff. split; [exact Hc|].
    specialize (IH Hr). cbn [List.length] in IH.
    replace (firstn (List.length trigger) rest)
      with (firstn (List.length trigger) (firstn (S (List.length trigger)) rest))
      by (rewrite firstn_firstn; f_equal; lia).
    now apply forallb_firstn.
Qed.

Lemma text_before_all (trigger body : pystr) :
  forallb (keeps_length RT) body = true ->
  forallb (keeps_length RT) (text_before RT trigger body) = true.
Proof.
  induction body as [|c body IH]; intros H.
  - cbn [text_before]. now destruct (ci_startswith RT trigger []).
  - cbn [text_before]. destruct (ci_startswith RT trigger (c :: body));
      [reflexivity|].
    cbn [forallb] in *. apply andb_true_iff in H as [Hc H].
    apply andb_true_iff. split; [exact Hc|now apply IH].
Qed.

(** When the characters before the first place of the trigger keep their
    length, the index found in the lowered body is that place. *)
Lemma find_lower (s trigger : pystr) :
  ascii_text trigger ->
  forall (rest : pystr) (k : nat) (j : Z),
    (0 <= j)%Z ->
    forallb (keeps_length RT) (text_before RT trigger rest) = true ->
    match text_following RT trigger rest with
    | Some text =>
        exists d : nat,
          find_from trigger (do_lower RT s k rest) j = (j + Z.of_nat d)%Z
          /\ text = skipn (d + List.length trigger) rest
    | None => find_from trigger (do_lower RT s k rest) j = (-1)%Z
    end.
Proof.
  intros Ha. induction rest as [|c rest IH]; intros k j Hj Hk.
  - cbn [text_following].
    rewrite <- (startswith_lower s trigger Ha [] k (kept_window trigger [] Hk)).
    cbn [do_lower find_from].
    destruct (startswith trigger []); [|reflexivity].
    exists 0%nat. split; [lia|reflexivity].
  - cbn [text_following].
    pose proof (startswith_lower s trigger Ha (c :: rest) k
                  (kept_window trigger (c :: rest) Hk)) as Hw.
    destruct (ci_startswith RT trigger (c :: rest)) eqn:E.
    + exists 0%nat. split; [|reflexivity].
      destruct (do_lower RT s k (c :: rest)); cbn [find_from]; rewrite Hw; lia.
    + assert (Hb : text_before RT trigger (c :: rest)
                   = c :: text_before RT trigger rest).
      { cbn [text_before]. destruct trigger; [discriminate|].
        cbn [ci_startswith] in *. now rewrite E. }
      rewrite Hb in Hk. cbn [forallb] in Hk.
      apply andb_true_iff in Hk as [Hc Hr].
      destruct (lower_ucs4_one s k c Hc) as (x & Hx & _).
      cbn [do_lower] in *. rewrite Hx in *. cbn [app find_from] in *.
      rewrite Hw.
      specialize (IH (S k) (j + 1)%Z ltac:(lia) Hr).
      destruct (text_following RT trigger rest) as [text|]; [|exact IH].
      destruct IH as (d & Hd & ->). exists (S d). split; [lia|reflexivity].
Qed.

(** One trigger: it is found in the lowered body exactly when it stands in
    the body, and the slice the handler takes is the text after it. *)
Lemma found_text_before (body trigger : pystr) :
  ascii_text trigger ->
  forallb (keeps_length RT) (text_before RT trigger body) = true ->
  match text_following RT trigger body with
  | Some text =>
      contains trigger (lower RT body) = true
      /\ slice_from body (PyStr.find trigger (lower RT body) + len trigger) = text
  | None => contains trigger (lower RT body) = false
  end.
Proof.
  intros Ht Hk. rewrite find_contains. unfold PyStr.find, lower.
  pose proof (find_lower body trigger Ht body 0 0%Z ltac:(lia) Hk) as H.
  destruct (text_following RT trigger body) as [text|].
  - destruct H as (d & -> & ->). split.
    + apply negb_true_iff, Z.eqb_neq. lia.
    + unfold slice_from, len.
      replace (0 + Z.of_nat d + Z.of_nat (List.length trigger) <? 0)%Z with false
        by (symmetry; apply Z.ltb_ge; lia).
      f_equal. lia.
  - now rewrite H.
Qed.

Lemma found_text (body trigger : pystr) :
  ascii_text trigger ->
  forallb (keeps_length RT) body = true ->
  match text_following RT trigger body with
  | Some text =>
      contains trigger (lower RT body) = true
      /\ slice_from body (PyStr.find trigger (lower RT body) + len trigger) = text
  | None => contains trigger (lower RT body) = false
  end.
Proof.
  intros Ht Hk. apply found_text_before; [exact Ht|now apply text_before_all].
Qed.

(** On a body whose characters keep their length the loop over the triggers
    computes what the specification describes. *)
Lemma scan_command_triggers_sound (body : pystr) (triggers : list pystr) :
  Forall ascii_text triggers ->
  forallb (keeps_length RT) body = true ->
  scan_command_triggers RT body triggers = text_after_command RT body triggers.
Proof.
  intros Ha Hk. induction Ha as [|t triggers Ht _ IH]; [reflexivity|].
  cbn [scan_command_triggers text_after_command]. rewrite IH.
  pose proof (found_text body t Ht Hk) as H.
  destruct (text_following RT t body) as [text|].
  - destruct H as [Hc <-]. rewrite Hc. rewrite find_contains in Hc. now rewrite Hc.
  - now rewrite H.
Qed.

End LowerFacts.

(** ** Commands in a comment *)

Lemma command_triggers_ascii : Forall ascii_text command_triggers.
Proof. repeat constructor. Qed.

Lemma scan_no_command RT body :
  no_command RT body -> scan_command_triggers RT body command_triggers = None.
Proof.
  intros H. unfold command_triggers.
  cbn [map scan_command_triggers].
  rewrite !H; [reflexivity| | |]; cbn; auto.
Qed.

Lemma scan_simple_phrase RT body :
  has_simple_phrase body ->
  scan_simple_triggers RT body simple_triggers = Some (strip body).
Proof.
  intros (phrase & Hin & Hc).
  assert (Hr : contains (utf8 "리뷰") (lower RT body) = true).
  { apply lower_keeps_caseless.
    - repeat constructor; discriminate.
    - apply (contains_part _ phrase); [|exact Hc].
      destruct Hin as [<-|[<-|[<-|[]]]]; reflexivity. }
  unfold simple_triggers. cbn [map scan_simple_triggers].
  rewrite Hr. now repeat destruct (contains _ _).
Qed.

(** On a body whose characters keep their length, the extracted prompt of a
    command is the trimmed text after the first trigger in priority order:
    what C4 states. *)
Lemma command_prompt_follows_the_trigger RT body :
  forallb (keeps_length RT) body = true ->
  ~ no_command RT body ->
  exists text,
    text_after_command RT body command_triggers = Some text
    /\ extract_user_prompt RT body = Some text.
Proof.
  intros Hk Hc. unfold extract_user_prompt.
  rewrite (scan_command_triggers_sound RT body command_triggers
             command_triggers_ascii Hk).
  destruct (text_after_command RT body command_triggers) as [text|] eqn:E; [eauto|].
  exfalso. apply Hc. intros trigger Hin.
  rewrite <- (scan_command_triggers_sound RT body command_triggers
                command_triggers_ascii Hk) in E.
  unfold command_triggers in *. cbn [map scan_command_triggers] in E.
  rewrite <- !find_contains in E.
  destruct Hin as [<-|[<-|[<-|[]]]];
    repeat match type of E with
           | (if ?b then _ else _) = None => destruct b; try discriminate
           end; reflexivity.
Qed.

Example analyze_example RT :
  extract_user_prompt RT (utf8 "/analyze please check null checks")
  = Some (utf8 "please check null checks").
Proof. reflexivity. Qed.


(** ** Runs *)

Section RunFacts.

Context {A B : Type}.

Lemma trace_bind (m : M A) (k : A -> M B) :
  trace (bind m k)
  = trace m ++ match outcome m with Ok a => trace (k a) | Raise _ => [] end.
Proof.
  destruct m as [t [a|e]]; simpl; [|now rewrite app_nil_r].
  now destruct (k a).
Qed.

Lemma trace_try_except (m h : M A) :
  trace (try_except m h)
  = trace m ++ match outcome m with Ok _ => [] | Raise _ => trace h end.
Proof.
  destruct m as [t [a|e]]; simpl; [now rewrite app_nil_r|]. now destruct h.
Qed.

(** A property of every event of a run is proved step by step. *)
Lemma Forall_trace_bind (P : event -> Prop) (m : M A) (k : A -> M B) :
  Forall P (trace m) ->
  (forall a, outcome m = Ok a -> Forall P (trace (k a))) ->
  Forall P (trace (bind m k)).
Proof.
  intros Hm Hk. rewrite trace_bind. apply Forall_app. split; [exact Hm|].
  destruct (outcome m); [now apply Hk|constructor].
Qed.

Lemma Forall_trace_try_except (P : event -> Prop) (m h : M A) :
  Forall P (trace m) -> Forall P (trace h) ->
  Forall P (trace (try_except m h)).
Proof.
  intros Hm Hh. rewrite trace_try_except. apply Forall_app. split; [exact Hm|].
  destruct (outcome m); [constructor|exact Hh].
Qed.

End RunFacts.

Lemma bind_emit {B} (e : event) (k : unit -> M B) :
  bind (emit e) k = (e :: trace (k tt), outcome (k tt)).
Proof. unfold emit, bind. now destruct (k tt). Qed.

Lemma bind_lift_ok {A B} (a : A) (k : A -> M B) : bind (lift (Ok a)) k = k a.
Proof. unfold lift, bind. now destruct (k a). Qed.

Lemma bind_lift_raise {A B} (e : exn) (k : A -> M B) :
  bind (lift (Raise e)) k = ([], Raise e).
Proof. reflexivity. Qed.

Lemma bind_run {A B} (t : list event) (a : A) (k : A -> M B) :
  bind (t, Ok a) k = (t ++ trace (k a), outcome (k a)).
Proof. unfold bind. now destruct (k a). Qed.

Lemma bind_raise {A B} (t : list event) (e : exn) (k : A -> M B) :
  bind (t, Raise e) k = (t, Raise e).
Proof. reflexivity. Qed.

Lemma run_eta {A} (m : M A) : m = (trace m, outcome m).
Proof. now destruct m. Qed.

Ltac lift_as x :=
  match goal with
  | |- context [bind (lift ?r) _] =>
      let E := fresh "E" x in
      destruct r as [x|?] eqn:E;
      [rewrite bind_lift_ok | rewrite bind_lift_raise, ?bind_raise]
  end.

(** ** Printing *)

Lemma py_print_ok RT vs :
  py_print RT vs = Ok tt <-> forallb (printable RT) vs = true.
Proof.
  unfold py_print. destruct (forallb (printable RT) vs); split; congruence.
Qed.

Lemma py_print_raises RT vs e : py_print RT vs = Raise e -> e = UnicodeEncodeError.
Proof.
  unfold py_print. destruct (forallb (printable RT) vs); congruence.
Qed.

(** What has been printed can be printed again. *)
Lemma py_print_incl RT vs vs' :
  py_print RT vs = Ok tt -> incl vs' vs -> py_print RT vs' = Ok tt.
Proof.
  rewrite !py_print_ok, !forallb_forall. intros H Hi x Hx. apply H, Hi, Hx.
Qed.

(** A shorter slice of a printed string prints. *)
Lemma printable_shorter RT v n m a b :
  py_slice_to v n = Ok a -> py_slice_to v m = Ok b -> (m <= n)%nat ->
  printable RT a = true -> printable RT b = true.
Proof.
  destruct v; cbn [py_slice_to]; try discriminate; intros Ha Hb Hle;
    injection Ha as <-; injection Hb as <-; [|reflexivity].
  cbn [printable].
  replace (firstn m s) with (firstn m (firstn n s))
    by (rewrite firstn_firstn; f_equal; lia).
  apply forallb_firstn.
Qed.

(** The representation of a printed value, rewritten as printed. *)
Ltac printed H :=
  match goal with
  | |- context [py_print ?RT ?vs] =>
      rewrite (py_print_incl RT _ vs H)
        by (intros ? ?; cbn [In] in *; tauto)
  end.

Ltac print_as H :=
  match goal with
  | |- context [bind (lift (py_print ?RT ?vs)) _] =>
      destruct (py_print RT vs) as [[]|?] eqn:H;
      [rewrite bind_lift_ok | rewrite bind_lift_raise, ?bind_raise]
  end.

(** ** The calls to GitLab *)

Lemma get_mr_changes_returns RT w p i v :
  outcome (get_mr_changes RT w p i) = Ok v -> v = fetched w p i.
Proof.
  unfold get_mr_changes, fetched.
  destruct (changes_reply w p i) as [| |st [x|]]; cbn -[py_print].
  - destruct (py_print RT [p; i]); cbn; congruence.
  - congruence.
  - destruct (st =? 200)%Z; cbn; congruence.
  - destruct (st =? 200)%Z; cbn; congruence.
Qed.

(** Once the project and the merge request have been printed, the fetch
    returns. *)
Lemma get_mr_changes_run RT w p i :
  py_print RT [p; i] = Ok tt ->
  get_mr_changes RT w p i = ([GetChanges p i], Ok (fetched w p i)).
Proof.
  intros H. unfold get_mr_changes, fetched.
  destruct (changes_reply w p i) as [| |st [v|]]; cbn -[py_print];
    rewrite ?H; try reflexivity; destruct (st =? 200)%Z; reflexivity.
Qed.

Lemma post_comment_to_mr_run RT w p i c :
  py_print RT [p; i] = Ok tt ->
  exists ok, post_comment_to_mr RT w p i c = ([PostNote p i c], Ok ok).
Proof.
  intros H. unfold post_comment_to_mr. rewrite H, bind_lift_ok.
  destruct (notes_reply w p i c) as [| |st b]; cbn -[py_print]; rewrite ?H;
    cbn; eauto.
  destruct (st =? 200)%Z; cbn; eauto. destruct (st =? 201)%Z; cbn; eauto.
Qed.

Lemma get_mr_info_run w p i :
  exists info, get_mr_info w p i = ([GetMergeRequest p i], Ok info).
Proof.
  unfold get_mr_info.
  destruct (merge_request_reply w p i) as [| |st b]; cbn; eauto.
  destruct (st =? 200)%Z; cbn; eauto.
  destruct b as [v|]; cbn; eauto.
  destruct v; cbn; eauto.
Qed.

Lemma get_mr_info_fetched w p i :
  get_mr_info w p i = ([GetMergeRequest p i], Ok (fetched_info w p i)).
Proof.
  unfold fetched_info. destruct (get_mr_info_run w p i) as [info ->]. reflexivity.
Qed.

Lemma generate_run RT w prompt :
  generate RT w prompt
  = ([GenerateContent prompt],
     if generation_printable RT w prompt then Ok (generated_text w prompt)
     else Raise UnicodeEncodeError).
Proof.
  unfold generate, generation_printable, generated_text. rewrite bind_emit.
  destruct (generate_content w prompt) as [text|e]; [reflexivity|].
  unfold py_print. cbn [forallb]. rewrite andb_true_r.
  destruct (printable RT (JStr e)); reflexivity.
Qed.

(** ** The merge-request handler *)

(** The run of [review_changes]: one generation and one post, of a comment
    made by [review_comment]; or an exception while the prompt is built or
    while the failure of the generation is printed. *)
Lemma review_changes_run RT w attrs p i c :
  py_print RT [p; i] = Ok tt ->
  review_changes RT w attrs p i c
  = match mr_prompt RT attrs c with
    | Ok prompt =>
        if generation_printable RT w prompt then
          ([GenerateContent prompt;
            PostNote p i (review_comment (generated_text w prompt))], Ok tt)
        else ([GenerateContent prompt], Raise UnicodeEncodeError)
    | Raise e => ([], Raise e)
    end.
Proof.
  intros Hp. unfold review_changes, mr_prompt.
  lift_as title; [|reflexivity].
  lift_as description; [|reflexivity].
  cbn [bind_result]. unfold analyze_with_gemini.
  lift_as prompt; [|reflexivity].
  rewrite generate_run.
  destruct (generation_printable RT w prompt); [|reflexivity].
  rewrite bind_run.
  destruct (post_comment_to_mr_run RT w p i
              (review_comment (generated_text w prompt)) Hp) as [ok Hpost].
  rewrite Hpost, bind_run. cbn [trace outcome fst snd].
  repeat printed Hp. reflexivity.
Qed.

(** The run of the merge-request handler. *)
Lemma process_mr_run RT w data :
  let r := process_mr_in_background RT w data in
  (exists e, r = ([], Raise e))
  \/ (exists action, r = ([Log (LogSkippedAction action)], Ok tt))
  \/ (exists attrs p i,
        py_print RT [p; i] = Ok tt
        /\ r = if truthy (fetched w p i) then
                 let r' := review_changes RT w attrs p i (fetched w p i) in
                 (GetChanges p i :: trace r', outcome r')
               else ([GetChanges p i; Log LogNoChanges], Ok tt)).
Proof.
  cbv zeta. unfold process_mr_in_background, log.
  lift_as object_attributes; [|left; eauto].
  lift_as action; [|left; eauto].
  destruct (existsb _ _); cbn [negb].
  2:{ print_as Hp; [right; left; eexists; reflexivity|left; eauto]. }
  lift_as mr_attrs; [|left; eauto].
  lift_as project_id; [|left; eauto].
  lift_as mr_iid; [|left; eauto].
  print_as Hp; [|left; eauto].
  right; right. exists mr_attrs, project_id, mr_iid. split; [exact Hp|].
  rewrite (get_mr_changes_run RT w _ _ Hp), bind_run.
  destruct (truthy _); cbn [negb]; [reflexivity|].
  printed Hp. reflexivity.
Qed.

(** ** The note handler *)

Lemma lookup_iid_early w p n : Forall early (trace (lookup_iid w p n)).
Proof.
  unfold lookup_iid. apply Forall_trace_try_except; [|constructor].
  rewrite bind_emit. cbn [trace fst]. constructor; [exact I|].
  lift_as response; [|constructor].
  destruct (fst response =? 200)%Z; [|constructor].
  lift_as mrs; [|constructor].
  lift_as items; [|constructor]. constructor.
Qed.

Lemma resolve_mr_iid_early w data note p nt n :
  Forall early (trace (resolve_mr_iid w data note p nt n)).
Proof.
  unfold resolve_mr_iid.
  destruct (py_eq nt _); [|constructor].
  lift_as mr_iid; [|constructor].
  apply Forall_trace_bind.
  - destruct (is_none mr_iid); [|constructor].
    lift_as nested; [|constructor].
    destruct nested; [|constructor].
    lift_as merge_request; [|constructor]. constructor.
  - intros v _. destruct (is_none v); [apply lookup_iid_early|constructor].
Qed.

Lemma early_quiet t : Forall early t -> Forall quiet t.
Proof.
  apply Forall_impl. intros [| | | | |[]]; cbn; tauto.
Qed.

Lemma user_prompt_of_note_str RT body :
  user_prompt_of_note RT (JStr body)
  = match scan_command_triggers RT body command_triggers with
    | Some p =>
        match py_print RT [JStr p] with
        | Ok _ => ([Log (LogPrompt p)], Ok (Some p))
        | Raise e => ([], Raise e)
        end
    | None =>
        match scan_simple_triggers RT body simple_triggers with
        | Some p =>
            match py_print RT [JStr p] with
            | Ok _ => ([Log (LogSimplePrompt p)], Ok (Some p))
            | Raise e => ([], Raise e)
            end
        | None => ([], Ok None)
        end
    end.
Proof.
  cbn [user_prompt_of_note]. unfold log.
  destruct (scan_command_triggers RT body command_triggers) as [p|].
  - destruct (py_print RT [JStr p]) as [[]|e]; reflexivity.
  - destruct (scan_simple_triggers RT body simple_triggers) as [p|]; [|reflexivity].
    destruct (py_print RT [JStr p]) as [[]|e]; reflexivity.
Qed.

(** The run of the note handler: it stops before it looks at the comment
    (early events only), or at the bot's signature, or for want of a
    command; or it logs the prompt and runs the review. *)
Lemma process_note_cases RT w data :
  let r := process_note_in_background RT w data in
  Forall early (trace r)
  \/ (exists pre note_body,
        Forall early pre
        /\ note_body_of data = Some note_body
        /\ py_in BOT_SIGNATURE note_body = Ok true
        /\ r = (pre ++ [Log LogBotComment], Ok tt))
  \/ (exists pre body,
        Forall early pre
        /\ note_body_of data = Some (JStr body)
        /\ extract_user_prompt RT body = None
        /\ r = (pre ++ [Log LogNoCommand], Ok tt))
  \/ exists pre e project_id mr_iid note_id author_username body user_prompt,
       note_body_of data = Some (JStr body)
       /\ contains BOT_SIGNATURE body = false
       /\ extract_user_prompt RT body = Some user_prompt
       /\ Forall early pre
       /\ prompt_log RT body e user_prompt
       /\ py_print RT [project_id; mr_iid; note_id] = Ok tt
       /\ let review := review_on_request RT w project_id mr_iid note_id
                           author_username user_prompt in
          r = (pre ++ e :: trace review, outcome review).
Proof.
  cbv zeta. unfold process_note_in_background, note_body_of, log.
  lift_as note; [|left; constructor].
  lift_as note_id; [|left; constructor].
  lift_as note_body; [|left; constructor].
  lift_as project; [|left; constructor].
  lift_as project_id; [|left; constructor].
  lift_as noteable_type; [|left; constructor].
  lift_as noteable_id; [|left; constructor].
  pose proof (resolve_mr_iid_early w data note project_id noteable_type noteable_id)
    as Hq.
  rewrite (run_eta (resolve_mr_iid _ _ _ _ _ _)).
  set (pre := trace (resolve_mr_iid w data note project_id noteable_type noteable_id))
    in *.
  destruct (outcome (resolve_mr_iid w data note project_id noteable_type noteable_id))
    as [mr_iid|e]; [|left; exact Hq].
  rewrite bind_run.
  assert (Hpre : forall t, Forall early t -> Forall early (pre ++ t))
    by (intros t Ht; apply Forall_app; now split).
  print_as Hp; [|left; apply Hpre; constructor].
  destruct (negb (py_eq noteable_type _) || is_none mr_iid).
  { left. apply Hpre. printed Hp. repeat constructor. }
  lift_as author; [|left; apply Hpre; constructor].
  lift_as author_username; [|left; apply Hpre; constructor].
  lift_as shown; [|left; apply Hpre; constructor].
  print_as Hshown; [|left; apply Hpre; constructor].
  destruct note_body as [| | |body|l|]; try discriminate.
  - (* a string *)
    cbn [py_in]. rewrite bind_lift_ok.
    destruct (contains BOT_SIGNATURE body) eqn:Hsig.
    { right; left. exists pre, (JStr body). split; [exact Hq|].
      split; [reflexivity|]. split; [cbn [py_in]; now rewrite Hsig|reflexivity]. }
    rewrite user_prompt_of_note_str. unfold extract_user_prompt.
    destruct (scan_command_triggers RT body command_triggers) as [p|] eqn:Hc.
    + destruct (py_print RT [JStr p]) as [[]|e];
        [|left; rewrite bind_raise; apply Hpre; constructor].
      right; right; right. exists pre, (Log (LogPrompt p)).
      exists project_id, mr_iid, note_id, author_username, body, p.
      split; [reflexivity|]. split; [exact Hsig|]. split; [now rewrite Hc|].
      split; [exact Hq|]. split; [left; now split|].
      split; [apply (py_print_incl RT _ _ Hp); intros ? ?; cbn [In] in *; tauto|].
      rewrite bind_run. cbn [trace outcome fst snd]. reflexivity.
    + destruct (scan_simple_triggers RT body simple_triggers) as [p|] eqn:Hs.
      * destruct (py_print RT [JStr p]) as [[]|e];
          [|left; rewrite bind_raise; apply Hpre; constructor].
        right; right; right. exists pre, (Log (LogSimplePrompt p)).
        exists project_id, mr_iid, note_id, author_username, body, p.
        split; [reflexivity|]. split; [exact Hsig|]. split; [now rewrite Hc|].
        split; [exact Hq|]. split; [right; now repeat split|].
        split; [apply (py_print_incl RT _ _ Hp); intros ? ?; cbn [In] in *; tauto|].
        rewrite bind_run. cbn [trace outcome fst snd]. reflexivity.
      * right; right; left. exists pre, body.
        split; [exact Hq|]. split; [reflexivity|]. split; [now rewrite Hc|].
        rewrite bind_run. cbn [py_slice_to]. rewrite bind_lift_ok.
        assert (Hshort : py_print RT [JStr (firstn 50 body)] = Ok tt).
        { apply py_print_ok. cbn [forallb]. rewrite andb_true_r.
          apply py_print_ok in Hshown. cbn [forallb] in Hshown.
          apply andb_true_iff in Hshown as [_ Hshown].
          rewrite andb_true_r in Hshown.
          now apply (printable_shorter RT (JStr body) 100 50 shown _ Eshown eq_refl);
            [lia|]. }
        rewrite Hshort, bind_lift_ok, bind_emit. printed Hp. reflexivity.
  - (* a list *)
    cbn [py_in]. rewrite bind_lift_ok.
    destruct (existsb _ l) eqn:Hsig.
    + right; left. exists pre, (JArr l). split; [exact Hq|].
      split; [reflexivity|]. split; [cbn [py_in]; now rewrite Hsig|reflexivity].
    + left. cbn [user_prompt_of_note]. rewrite bind_lift_raise.
      apply Hpre. constructor.
Qed.

(** In short: the run is quiet, or it logs the prompt and runs the review. *)
Lemma process_note_quiet_or_review RT w data :
  let r := process_note_in_background RT w data in
  Forall quiet (trace r)
  \/ exists pre e project_id mr_iid note_id author_username body user_prompt,
       note_body_of data = Some (JStr body)
       /\ contains BOT_SIGNATURE body = false
       /\ extract_user_prompt RT body = Some user_prompt
       /\ Forall quiet pre
       /\ prompt_log RT body e user_prompt
       /\ py_print RT [project_id; mr_iid; note_id] = Ok tt
       /\ let review := review_on_request RT w project_id mr_iid note_id
                           author_username user_prompt in
          r = (pre ++ e :: trace review, outcome review).
Proof.
  cbv zeta.
  destruct (process_note_cases RT w data)
    as [H|[(pre & v & H & _ & _ & ->)|[(pre & body & H & _ & _ & ->)|H]]].
  - left. now apply early_quiet.
  - left. apply Forall_app. split; [now apply early_quiet|]. repeat constructor.
  - left. apply Forall_app. split; [now apply early_quiet|]. repeat constructor.
  - right.
    destruct H as (pre & e & p & i & n & u & body & up
                   & H1 & H2 & H3 & H4 & H5 & H6 & H7).
    exists pre, e, p, i, n, u, body, up. repeat split; trivial.
    now apply early_quiet.
Qed.

(** The run of [requested_review]: the merge request is read, one text is
    generated and one comment, made by [requested_review_comment], is
    posted; or an exception ends it while the prompt is built or while the
    failure of the generation is printed. *)
Lemma requested_review_run RT w p i n u c up :
  py_print RT [p; i; n] = Ok tt ->
  requested_review RT w p i n u c up
  = match AnalyzeWithGeminiForComment.build_prompt RT c (fetched_info w p i)
            (Some up) with
    | Ok prompt =>
        if generation_printable RT w prompt then
          ([GetMergeRequest p i; GenerateContent prompt;
            PostNote p i (requested_review_comment RT (generated_text w prompt) u)],
           Ok tt)
        else ([GetMergeRequest p i; GenerateContent prompt],
              Raise UnicodeEncodeError)
    | Raise e => ([GetMergeRequest p i], Raise e)
    end.
Proof.
  intros Hp. unfold requested_review.
  rewrite get_mr_info_fetched, bind_run. printed Hp. rewrite bind_lift_ok.
  unfold analyze_with_gemini_for_comment.
  lift_as prompt; [|reflexivity].
  rewrite generate_run.
  destruct (generation_printable RT w prompt); [|reflexivity].
  rewrite bind_run.
  assert (Hpi : py_print RT [p; i] = Ok tt)
    by (apply (py_print_incl RT _ _ Hp); intros ? ?; cbn [In] in *; tauto).
  destruct (post_comment_to_mr_run RT w p i
              (requested_review_comment RT (generated_text w prompt) u) Hpi)
    as [ok Hpost].
  rewrite Hpost, bind_run. cbn [trace outcome fst snd app].
  rewrite Hp. reflexivity.
Qed.

Lemma review_on_request_run RT w p i n u up :
  py_print RT [p; i; n] = Ok tt ->
  review_on_request RT w p i n u up
  = if truthy (fetched w p i) then
      let r := requested_review RT w p i n u (fetched w p i) up in
      (GetChanges p i :: trace r, outcome r)
    else ([GetChanges p i; Log LogNoChanges; PostNote p i no_changes_comment], Ok tt).
Proof.
  intros Hp. unfold review_on_request, log.
  assert (Hpi : py_print RT [p; i] = Ok tt)
    by (apply (py_print_incl RT _ _ Hp); intros ? ?; cbn [In] in *; tauto).
  rewrite (get_mr_changes_run RT w p i Hpi), bind_run.
  destruct (truthy (fetched w p i)); cbn [negb].
  - reflexivity.
  - printed Hp. rewrite bind_lift_ok, bind_emit.
    destruct (post_comment_to_mr_run RT w p i no_changes_comment Hpi) as [ok ->].
    reflexivity.
Qed.

Lemma posted_app t t' : posted (t ++ t') = posted t ++ posted t'.
Proof.
  induction t as [|e t IH]; [reflexivity|].
  destruct e; cbn; now rewrite IH.
Qed.

Lemma posted_quiet t : Forall quiet t -> posted t = [].
Proof.
  induction 1 as [|e t He _ IH]; [reflexivity|].
  destruct e; cbn in *; try contradiction; exact IH.
Qed.

Lemma not_in_quiet t p i : Forall quiet t -> ~ In (GetChanges p i) t.
Proof.
  intros H Hin. rewrite Forall_forall in H. exact (H _ Hin).
Qed.

(** ** The posted comments *)

Lemma review_comment_signed a : contains BOT_SIGNATURE (review_comment a) = true.
Proof.
  unfold review_comment. apply contains_iff.
  eexists (nl ++ utf8 "## "), _. rewrite <- !app_assoc. reflexivity.
Qed.

Lemma requested_review_comment_signed RT a u :
  contains BOT_SIGNATURE (requested_review_comment RT a u) = true.
Proof.
  unfold requested_review_comment. apply contains_iff.
  eexists (nl ++ utf8 "## "), _. rewrite <- !app_assoc. reflexivity.
Qed.

Lemma no_changes_comment_unsigned :
  contains BOT_SIGNATURE no_changes_comment = false.
Proof. reflexivity. Qed.

Lemma no_changes_comment_is_a_command RT :
  extract_user_prompt RT no_changes_comment = Some no_changes_comment.
Proof. reflexivity. Qed.

Lemma mr_comments_signed RT w data p i c :
  In (p, i, c) (posted (trace (process_mr_in_background RT w data))) ->
  contains BOT_SIGNATURE c = true.
Proof.
  destruct (process_mr_run RT w data)
    as [[e ->]|[[a ->]|(attrs & p' & i' & Hp & ->)]]; try (intros []).
  destruct (truthy _); [|intros []].
  cbv zeta. rewrite (review_changes_run RT w attrs p' i' _ Hp).
  destruct (mr_prompt RT attrs (fetched w p' i')) as [prompt|e]; [|intros []].
  destruct (generation_printable RT w prompt); [|intros []].
  cbn [trace fst posted].
  intros [H|[]]. injection H as _ _ <-. apply review_comment_signed.
Qed.

Lemma note_comments RT w data p i c :
  In (p, i, c) (posted (trace (process_note_in_background RT w data))) ->
  contains BOT_SIGNATURE c = true \/ c = no_changes_comment.
Proof.
  destruct (process_note_quiet_or_review RT w data) as [Hq|H].
  - rewrite (posted_quiet _ Hq). intros [].
  - destruct H as (pre & e & p' & i' & n & u & body & up
                   & _ & _ & _ & Hq & He & Hp & ->).
    cbv zeta. cbn [trace fst]. rewrite posted_app, (posted_quiet _ Hq). cbn [app].
    replace (posted (e :: trace (review_on_request RT w p' i' n u up)))
      with (posted (trace (review_on_request RT w p' i' n u up)))
      by (destruct He as [[_ ->]|(_ & _ & ->)]; reflexivity).
    rewrite (review_on_request_run RT w p' i' n u up Hp).
    destruct (truthy _).
    + cbv zeta. rewrite (requested_review_run RT w p' i' n u _ up Hp).
      destruct (AnalyzeWithGeminiForComment.build_prompt RT _ _ _) as [prompt|e'];
        [|intros []].
      destruct (generation_printable RT w prompt); [|intros []].
      cbn [trace fst posted].
      intros [H|[]]. injection H as _ _ <-. left.
      apply requested_review_comment_signed.
    + cbn [trace fst posted]. intros [H|[]]. injection H as _ _ <-. now right.
Qed.

(** ** The prompts *)

Lemma py_eq_str (v : json) (s : pystr) : py_eq v (JStr s) = true <-> v = JStr s.
Proof.
  destruct v; cbn; try (split; [discriminate|discriminate]).
  rewrite str_eqb_eq. split; congruence.
Qed.

Lemma py_eq_str_false (v : json) (s : pystr) :
  v <> JStr s -> py_eq v (JStr s) = false.
Proof.
  intros H. destruct (py_eq v (JStr s)) eqn:E; [|reflexivity].
  now apply py_eq_str in E.
Qed.

Lemma Ok_inj {A} (a b : A) : Ok a = Ok b -> a = b.
Proof. congruence. Qed.

Lemma add_change_record RT prompt kv p :
  path_of kv = JStr p ->
  AnalyzeWithGemini.add_change RT prompt (JObj kv)
  = Ok (prompt ++ contribution RT (JObj kv)).
Proof.
  intros Hp. unfold AnalyzeWithGemini.add_change, contribution.
  cbn [py_get bind_result]. fold (path_of kv). rewrite Hp.
  fold (source_file RT p).
  destruct (source_file RT p); cbn [negb].
  - unfold file_section, get_default. now rewrite <- app_assoc.
  - now rewrite app_nil_r.
Qed.

Lemma add_changes_records RT changes :
  Forall change_record changes ->
  forall prompt,
    AnalyzeWithGemini.add_changes RT prompt changes
    = Ok (prompt ++ flat_map (contribution RT) changes).
Proof.
  induction 1 as [|c l (kv & p & -> & Hp) _ IH]; intros prompt.
  - cbn. now rewrite app_nil_r.
  - cbn [AnalyzeWithGemini.add_changes flat_map].
    rewrite (add_change_record RT prompt kv p Hp). cbn [bind_result].
    rewrite IH. now rewrite <- app_assoc.
Qed.

Section PromptPrefix.
Variable RT : Runtime.

Lemma add_change_prefix (pre prompt : pystr) (change : json) :
  AnalyzeWithGemini.add_change RT (pre ++ prompt) change
  = (x <-' AnalyzeWithGemini.add_change RT prompt change ;; Ok (pre ++ x)).
Proof.
  unfold AnalyzeWithGemini.add_change.
  destruct (py_get change (utf8 "old_path") _) as [old|]; [|reflexivity].
  cbn [bind_result].
  destruct (py_get change (utf8 "new_path") old) as [[| | |p| |]|]; try reflexivity.
  cbn [bind_result].
  destruct (negb _); [reflexivity|].
  destruct (py_get change (utf8 "diff") _); [|reflexivity].
  cbn [bind_result]. now rewrite <- !app_assoc.
Qed.

Lemma add_changes_prefix (pre : pystr) (changes : list json) :
  forall prompt,
    AnalyzeWithGemini.add_changes RT (pre ++ prompt) changes
    = (x <-' AnalyzeWithGemini.add_changes RT prompt changes ;; Ok (pre ++ x)).
Proof.
  induction changes as [|c l IH]; intros prompt; [reflexivity|].
  cbn [AnalyzeWithGemini.add_changes]. rewrite add_change_prefix.
  destruct (AnalyzeWithGemini.add_change RT prompt c); [|reflexivity].
  cbn [bind_result]. apply IH.
Qed.

(** The two loops are the same function. *)
Lemma same_loop (prompt : pystr) (changes : list json) :
  AnalyzeWithGeminiForComment.add_changes RT prompt changes
  = AnalyzeWithGemini.add_changes RT prompt changes.
Proof. reflexivity. Qed.

End PromptPrefix.


(** * The claims *)

(** ** C1: the bot's own comments are skipped *)

(** C1.  When the comment body of a note hook contains the bot signature,
    the run of the note handler consists of quiet events only: no prompt is
    extracted (no [LogPrompt], no [LogSimplePrompt]), the changes are not
    fetched, nothing is generated and nothing is posted.  This holds for
    every payload around the body and for every world. *)
Theorem bot_comment_is_skipped (RT : Runtime) (w : World) (data : json)
    (body : pystr) :
  note_body_of data = Some (JStr body) ->
  contains BOT_SIGNATURE body = true ->
  Forall quiet (trace (process_note_in_background RT w data)).
Proof.
  intros Hbody Hsig.
  destruct (process_note_quiet_or_review RT w data) as [H|H]; [exact H|].
  destruct H as (pre & e & p & i & n & u & body' & up & Hb & Hs & _).
  rewrite Hbody in Hb. injection Hb as <-. congruence.
Qed.

(** A review the bot posted comes back as a note: it holds [/review] and a
    simple phrase, and is skipped. *)
Lemma bot_comment_is_skipped_example :
  let data :=
    Sample.note_event "## 🤖 AI 코드 리뷰 - 사용자 요청 /review again" in
  let body := utf8 "## 🤖 AI 코드 리뷰 - 사용자 요청 /review again" in
  note_body_of data = Some (JStr body)
  /\ contains BOT_SIGNATURE body = true
  /\ Forall quiet
       (trace (process_note_in_background Sample.runtime Sample.world_up data)).
Proof.
  cbv zeta. split; [reflexivity|]. split; [reflexivity|].
  apply (bot_comment_is_skipped Sample.runtime Sample.world_up
           (Sample.note_event "## 🤖 AI 코드 리뷰 - 사용자 요청 /review again")
           (utf8 "## 🤖 AI 코드 리뷰 - 사용자 요청 /review again"));
    reflexivity.
Defined.

(** ** C2: the signature in the posted comments *)

(** C2.  The claim is that every posted comment carries the signature.  The
    two review comments do ([mr_comments_signed], [note_comments]); the
    comment the note handler posts when the changes cannot be fetched does
    not.  When the request for the changes times out, a note [/review] makes
    the handler post exactly that comment; the comment has no signature, and,
    read back as a note, it is itself a command. *)
Theorem fallback_comment_is_unsigned :
  let r := process_note_in_background Sample.runtime Sample.world_no_changes
             (Sample.note_event "/review") in
  posted (trace r) = [(JInt 7, JInt 3, no_changes_comment)]
  /\ contains BOT_SIGNATURE no_changes_comment = false
  /\ extract_user_prompt Sample.runtime no_changes_comment = Some no_changes_comment.
Proof. cbv zeta. repeat split; vm_compute; reflexivity. Qed.

(** ** C3: a merge request hook with an unhandled action *)

(** A hook with action close: the endpoint answers 202 and starts a thread. *)
Lemma close_event_is_accepted :
  ~ C3_as_stated Sample.runtime Sample.world_up (Sample.mr_event "close").
Proof.
  intros H.
  destruct (H (Sample.str "close")) as (r & Hr & _); try reflexivity;
    try discriminate.
Qed.

(** C3, amended.  A merge request hook is accepted whatever its action: the
    endpoint answers 202 with status accepted and starts the thread of
    [process_mr_in_background].  When the action is neither open nor update
    (a missing action reads as [None]), that thread fetches nothing,
    generates nothing and posts nothing: it prints the action and returns,
    or, when the action is a string that the standard output cannot encode
    (it holds a lone surrogate), the [print] of line 306 raises
    [UnicodeEncodeError] and the thread ends there. *)
Theorem unhandled_action_is_accepted_then_skipped (RT : Runtime) (w : World)
    (data action : json) :
  object_kind_of data = Ok k_merge_request ->
  mr_action data = Ok action ->
  action <> a_open -> action <> a_update ->
  (exists r,
     gitlab_webhook RT (post_of data) = Ok (r, [ProcessMr data])
     /\ code r = 202%Z /\ status r = utf8 "accepted")
  /\ run_thread RT w (ProcessMr data)
     = (if printable RT action then ([Log (LogSkippedAction action)], Ok tt)
        else ([], Raise UnicodeEncodeError)).
Proof.
  unfold object_kind_of, mr_action. intros Hk Ha Ho Hu. split.
  - unfold gitlab_webhook, post_of. cbn [method request_json].
    rewrite Hk. cbn [bind_result].
    replace (py_print RT [k_merge_request]) with (Ok tt : result unit)
      by reflexivity.
    replace (py_eq k_merge_request (JStr (utf8 "merge_request"))) with true
      by reflexivity.
    eexists. split; [reflexivity|]. split; reflexivity.
  - cbn [run_thread]. unfold process_mr_in_background, log.
    destruct (py_get data (utf8 "object_attributes") (JObj [])) as [attrs|e];
      [|discriminate].
    cbn [bind_result] in Ha. rewrite bind_lift_ok, Ha, bind_lift_ok.
    cbn [existsb].
    rewrite (py_eq_str_false _ _ Ho), (py_eq_str_false _ _ Hu).
    cbn [orb negb]. unfold py_print. cbn [forallb]. rewrite andb_true_r.
    destruct (printable RT action); reflexivity.
Qed.

(** The hook with action close under the amended statement: the action is
    printed. *)
Lemma unhandled_action_is_accepted_then_skipped_example :
  let data := Sample.mr_event "close" in
  (exists r,
     gitlab_webhook Sample.runtime (post_of data) = Ok (r, [ProcessMr data])
     /\ code r = 202%Z /\ status r = utf8 "accepted")
  /\ run_thread Sample.runtime Sample.world_up (ProcessMr data)
     = ([Log (LogSkippedAction (Sample.str "close"))], Ok tt).
Proof.
  cbv zeta.
  apply (unhandled_action_is_accepted_then_skipped Sample.runtime Sample.world_up
           (Sample.mr_event "close") (Sample.str "close")).
  - reflexivity.
  - reflexivity.
  - discriminate.
  - discriminate.
Defined.

(** ** C4: the text after a command trigger *)

(** C4.  The claim is that the prompt is the trimmed text of the original
    body after the trigger.  The handler finds the trigger in the lowered
    body and cuts the original body at that index (lines 430-433), and
    lowering U+0130 gives two characters.  In the body below [/review]
    stands at index 1 and [abc] follows it; the lowered body has it at index
    2, and the prompt comes out as [bc].  On a body whose characters keep
    their length the claim holds ([command_prompt_follows_the_trigger]). *)
Theorem dotted_capital_i_shifts_the_prompt (RT : Runtime) :
  let body := utf8 "İ/reviewabc" in
  contains (utf8 "/review") (lower RT body) = true
  /\ text_after_command RT body command_triggers = Some (utf8 "abc")
  /\ extract_user_prompt RT body = Some (utf8 "bc").
Proof. cbv zeta. repeat split; reflexivity. Qed.

(** ** C5: simple phrases, and commands before them *)

(** A body with [/review], [@bot] and a simple phrase: the prompt is the text
    after [@bot], not the text after [/review]. *)
Lemma bot_mention_outranks_review :
  ~ C5_as_stated Sample.runtime (utf8 "/review @bot 리뷰").
Proof.
  intros [_ H]. destruct H as (text & Ht & He).
  - reflexivity.
  - exists (utf8 "리뷰"). split; [right; right; left|]; reflexivity.
  - vm_compute in Ht. injection Ht as <-. vm_compute in He. discriminate.
Qed.

(** C5, amended.  Take a body that holds one of the simple phrases.  When no
    command trigger stands in it, the prompt is the whole trimmed body.  When
    [/review] stands in it, the command wins over the whole-body rule: the
    prompt is the trimmed slice the handler cuts after a command trigger.
    That slice is the text after the first [/review] when [@bot], which is
    tried first, does not stand in the body and the characters before that
    [/review] lowercase to one character each (otherwise the index slips, as
    C4 shows). *)
Theorem simple_phrase_or_review_command (RT : Runtime) (body : pystr) :
  has_simple_phrase body ->
  (no_command RT body -> extract_user_prompt RT body = Some (strip body))
  /\ (contains (utf8 "/review") (lower RT body) = true ->
      (exists trigger,
         In trigger command_triggers
         /\ contains trigger (lower RT body) = true
         /\ extract_user_prompt RT body
            = Some (strip (slice_from body
                             (PyStr.find trigger (lower RT body) + len trigger))))
      /\ (contains (utf8 "@bot") (lower RT body) = false ->
          forallb (keeps_length RT) (text_before RT (utf8 "/review") body) = true ->
          exists text,
            text_following RT (utf8 "/review") body = Some text
            /\ extract_user_prompt RT body = Some (strip text))).
Proof.
  intros Hs. split.
  - intros Hn. unfold extract_user_prompt.
    rewrite (scan_no_command RT body Hn). now apply scan_simple_phrase.
  - intros Hr.
    assert (Hx : forall t, contains t (lower RT body) = true ->
                 negb (PyStr.find t (lower RT body) =? -1)%Z = true)
      by (intros t Ht; now rewrite <- find_contains).
    unfold extract_user_prompt, command_triggers.
    cbn [map scan_command_triggers]. split.
    + destruct (contains (utf8 "@bot") (lower RT body)) eqn:Hb.
      * exists (utf8 "@bot"). split; [left; reflexivity|]. split; [exact Hb|].
        now rewrite (Hx _ Hb).
      * exists (utf8 "/review"). split; [right; left; reflexivity|].
        split; [exact Hr|]. now rewrite Hr, (Hx _ Hr).
    + intros Hb Hk. rewrite Hb, Hr, (Hx _ Hr).
      pose proof (found_text_before RT body (utf8 "/review")
                    ltac:(repeat constructor) Hk) as H.
      destruct (text_following RT (utf8 "/review") body) as [text|];
        [|congruence].
      destruct H as [_ H]. exists text. split; [reflexivity|]. now rewrite H.
Qed.

(** The example of the specification, a [/Review] before a simple phrase,
    and a [/review] followed by a capital I with dot above. *)
Lemma simple_phrase_or_review_command_example :
  extract_user_prompt Sample.runtime (utf8 "  코드 리뷰 부탁드려요 ")
  = Some (utf8 "코드 리뷰 부탁드려요")
  /\ extract_user_prompt Sample.runtime (utf8 "/Review 코드리뷰 tests")
     = Some (utf8 "코드리뷰 tests")
  /\ extract_user_prompt Sample.runtime (utf8 "/review abc İ 리뷰")
     = Some (utf8 "abc İ 리뷰").
Proof.
  split; [|split].
  - apply (simple_phrase_or_review_command Sample.runtime
             (utf8 "  코드 리뷰 부탁드려요 ")).
    + exists (utf8 "리뷰"). split; [right; right; left|]; reflexivity.
    + intros t [<-|[<-|[<-|[]]]]; reflexivity.
  - assert (Hs : has_simple_phrase (utf8 "/Review 코드리뷰 tests"))
      by (exists (utf8 "코드리뷰"); split; [left|]; reflexivity).
    destruct (simple_phrase_or_review_command Sample.runtime
                (utf8 "/Review 코드리뷰 tests") Hs) as [_ H].
    destruct (H eq_refl) as [_ Hr].
    destruct (Hr eq_refl eq_refl) as (text & Ht & He).
    vm_compute in Ht. injection Ht as <-. exact He.
  - assert (Hs : has_simple_phrase (utf8 "/review abc İ 리뷰"))
      by (exists (utf8 "리뷰"); split; [right; right; left|]; reflexivity).
    destruct (simple_phrase_or_review_command Sample.runtime
                (utf8 "/review abc İ 리뷰") Hs) as [_ H].
    destruct (H eq_refl) as [_ Hr].
    destruct (Hr eq_refl eq_refl) as (text & Ht & He).
    vm_compute in Ht. injection Ht as <-. exact He.
Defined.

(** ** C6: the answers of the endpoint *)

(** C6.  The claim is that every request is answered 200, 202 or 400.  The
    view answers 400 when reading the body raises (the [try] of lines
    531-542), but [data.get] on line 546 stands outside that [try]: a body
    that parses to a JSON value other than an object (a list, a string, a
    number, [null]) makes the view raise [AttributeError], and no answer of
    the claim is given.  So does, with [UnicodeEncodeError], an object whose
    [object_kind] the [print] of line 547 cannot encode. *)
Theorem non_object_payload_raises (RT : Runtime) :
  (exists r,
     gitlab_webhook RT {| method := POST; request_json := None |} = Ok (r, [])
     /\ code r = 400%Z /\ status r = utf8 "error")
  /\ gitlab_webhook RT (post_of (JArr [])) = Raise AttributeError
  /\ (forall data, (forall kv, data <> JObj kv) ->
      gitlab_webhook RT (post_of data) = Raise AttributeError)
  /\ gitlab_webhook RT (post_of (JObj [(utf8 "object_kind", JStr [0xD800%N])]))
     = Raise UnicodeEncodeError.
Proof.
  split; [|split; [|split]].
  - eexists. split; [reflexivity|]. split; reflexivity.
  - reflexivity.
  - intros data H. destruct data; try reflexivity. now elim (H kv).
  - unfold gitlab_webhook, post_of. cbn [method request_json].
    cbn. unfold py_print, printable, encodable. cbn.
    now rewrite andb_false_r.
Qed.

(** ** C7: a failed fetch of the changes *)

(** C7.  Suppose [get_mr_changes] returns [None] for a merge request.  A
    merge-request task that fetched its changes ends there: it returns
    normally and has posted nothing.  A note task that fetched them has
    posted exactly one comment, the fixed explanation [no_changes_comment],
    and returns normally.  No exception leaves either task. *)
Theorem failed_fetch_ends_the_task (RT : Runtime) (w : World)
    (mr_data note_data p i : json) :
  outcome (get_mr_changes RT w p i) = Ok JNull ->
  let mr := process_mr_in_background RT w mr_data in
  let note := process_note_in_background RT w note_data in
  (In (GetChanges p i) (trace mr) -> posted (trace mr) = [] /\ outcome mr = Ok tt)
  /\ (In (GetChanges p i) (trace note) ->
      posted (trace note) = [(p, i, no_changes_comment)] /\ outcome note = Ok tt).
Proof.
  intros Hnone. apply get_mr_changes_returns in Hnone. symmetry in Hnone.
  cbv zeta. split.
  - destruct (process_mr_run RT w mr_data)
      as [[e ->]|[[a ->]|(attrs & p' & i' & Hp & ->)]].
    + intros [].
    + intros [H|[]]. discriminate.
    + destruct (truthy (fetched w p' i')) eqn:Ht.
      * cbv zeta. rewrite (review_changes_run RT w attrs p' i' _ Hp).
        destruct (mr_prompt RT attrs (fetched w p' i')) as [prompt|e];
          [destruct (generation_printable RT w prompt)|];
          cbn [trace fst];
          (intros [H|H];
           [injection H as -> ->; rewrite Hnone in Ht; discriminate|]).
        -- destruct H as [H|[H|[]]]; discriminate.
        -- destruct H as [H|[]]; discriminate.
        -- destruct H.
      * intros _. split; reflexivity.
  - destruct (process_note_quiet_or_review RT w note_data) as [Hq|H].
    + intros Hin. now apply not_in_quiet in Hin.
    + destruct H as (pre & e & p' & i' & n & u & body & up
                     & _ & _ & _ & Hq & He & Hp & ->).
      cbv zeta. cbn [trace outcome fst snd]. intros Hin.
      apply in_app_or in Hin as [Hin|Hin]; [now apply not_in_quiet in Hin|].
      destruct Hin as [Hin|Hin]; [destruct He as [[_ ->]|(_ & _ & ->)]; discriminate|].
      rewrite (review_on_request_run RT w p' i' n u up Hp) in *.
      destruct (truthy (fetched w p' i')) eqn:Ht.
      * cbv zeta in Hin. cbn [trace fst] in Hin.
        destruct Hin as [H|H];
          [injection H as -> ->; rewrite Hnone in Ht; discriminate|].
        rewrite (requested_review_run RT w p' i' n u _ up Hp) in H.
        destruct (AnalyzeWithGeminiForComment.build_prompt RT _ _ _) as [prompt|e'];
          [destruct (generation_printable RT w prompt)|]; cbn [trace fst] in H.
        -- destruct H as [H|[H|[H|[]]]]; discriminate.
        -- destruct H as [H|[H|[]]]; discriminate.
        -- destruct H as [H|[]]; discriminate.
      * cbn [trace fst] in Hin.
        destruct Hin as [H|[H|[H|[]]]]; try discriminate.
        injection H as -> ->.
        cbn [trace outcome fst snd]. split; [|reflexivity].
        rewrite posted_app, (posted_quiet _ Hq).
        destruct He as [[_ ->]|(_ & _ & ->)]; reflexivity.
Qed.

(** Both tasks when the request for the changes times out. *)
Lemma failed_fetch_ends_the_task_example :
  let w := Sample.world_no_changes in
  let mr := process_mr_in_background Sample.runtime w (Sample.mr_event "open") in
  let note := process_note_in_background Sample.runtime w (Sample.note_event "/review") in
  outcome (get_mr_changes Sample.runtime w (JInt 7) (JInt 3)) = Ok JNull
  /\ In (GetChanges (JInt 7) (JInt 3)) (trace mr)
  /\ In (GetChanges (JInt 7) (JInt 3)) (trace note)
  /\ (posted (trace mr) = [] /\ outcome mr = Ok tt)
  /\ (posted (trace note) = [(JInt 7, JInt 3, no_changes_comment)]
      /\ outcome note = Ok tt).
Proof.
  cbv zeta.
  assert (H : outcome (get_mr_changes Sample.runtime Sample.world_no_changes
                         (JInt 7) (JInt 3))
              = Ok JNull) by reflexivity.
  assert (Hmr : In (GetChanges (JInt 7) (JInt 3))
                  (trace (process_mr_in_background Sample.runtime
                            Sample.world_no_changes (Sample.mr_event "open"))))
    by (vm_compute; left; reflexivity).
  assert (Hnote : In (GetChanges (JInt 7) (JInt 3))
                    (trace (process_note_in_background Sample.runtime
                              Sample.world_no_changes (Sample.note_event "/review"))))
    by (vm_compute; right; left; reflexivity).
  split; [exact H|]. split; [exact Hmr|]. split; [exact Hnote|].
  destruct (failed_fetch_ends_the_task Sample.runtime Sample.world_no_changes
              (Sample.mr_event "open") (Sample.note_event "/review")
              (JInt 7) (JInt 3) H) as [A B].
  split; [exact (A Hmr)|exact (B Hnote)].
Defined.

(** ** C8: which files reach the prompt *)

(** C8.  For a changeset whose records have a path, the prompt of
    [analyze_with_gemini] is its head, then what each record contributes, in
    order, then the closing instruction; and the builder returns (no error).
    A record contributes its file section (path and raw diff) when the
    lowercased extension of its path is in the allow-list, and nothing
    otherwise.  A record whose path is README.md contributes nothing; one
    whose path is main.go contributes its section. *)
Theorem sections_follow_the_allow_list (RT : Runtime)
    (changes_data : list (pystr * json)) (changes : list json)
    (mr_info : list (pystr * json)) (user_prompt : option pystr) :
  dict_get (utf8 "changes") changes_data = Some (JArr changes) ->
  Forall change_record changes ->
  AnalyzeWithGemini.build_prompt RT (JObj changes_data) mr_info user_prompt
  = Ok (prompt_head RT mr_info user_prompt
        ++ flat_map (contribution RT) changes
        ++ AnalyzeWithGemini.closing)
  /\ (forall kv p, path_of kv = JStr p ->
      (source_file RT p = true /\ contribution RT (JObj kv) = file_section RT p kv
       /\ file_section RT p kv <> [])
      \/ (source_file RT p = false /\ contribution RT (JObj kv) = []))
  /\ (forall kv, path_of kv = JStr (utf8 "README.md") ->
      contribution RT (JObj kv) = [])
  /\ (forall kv, path_of kv = JStr (utf8 "main.go") ->
      contribution RT (JObj kv) = file_section RT (utf8 "main.go") kv).
Proof.
  intros Hc Hrec. split; [|split; [|split]].
  - unfold AnalyzeWithGemini.build_prompt. cbn [py_get]. rewrite Hc.
    cbn [bind_result iter_items].
    rewrite (add_changes_records RT changes Hrec). cbn [bind_result].
    unfold prompt_head.
    destruct (prompt_given user_prompt); now rewrite <- !app_assoc.
  - intros kv p Hp. unfold contribution. rewrite Hp.
    destruct (source_file RT p); [left|right]; repeat split. discriminate.
  - intros kv Hp. unfold contribution. now rewrite Hp.
  - intros kv Hp. unfold contribution. now rewrite Hp.
Qed.

(** A changeset with README.md and main.go: the prompt holds the section of
    main.go only. *)
Lemma sections_follow_the_allow_list_example :
  AnalyzeWithGemini.build_prompt Sample.runtime Sample.changes [] None
  = Ok (prompt_head Sample.runtime [] None
        ++ file_section Sample.runtime (utf8 "main.go")
             [(utf8 "old_path", Sample.str "main.go");
              (utf8 "new_path", Sample.str "main.go");
              (utf8 "diff", Sample.str "+func main() {}")]
        ++ AnalyzeWithGemini.closing).
Proof.
  refine (proj1 (sections_follow_the_allow_list Sample.runtime _ _ [] None
                   (eq_refl : dict_get (utf8 "changes")
                                [(utf8 "changes", _)] = Some (JArr _)) _)).
  repeat constructor; do 2 eexists; (split; [reflexivity|reflexivity]).
Defined.

(** ** C9: the two prompts *)

(** With no change, no title and no request, the prompts minus their closing
    instructions still differ: in their first line. *)
Lemma prompts_differ_before_the_closing :
  ~ C9_as_stated Sample.runtime (JObj []) [] None.
Proof.
  intros [[c|e] [H1 H2]]; cbn [bind_result] in *; [|discriminate].
  assert (E1 : AnalyzeWithGemini.build_prompt Sample.runtime (JObj []) [] None
               = Ok ((AnalyzeWithGemini.header Sample.runtime []
                      ++ AnalyzeWithGemini.files_heading)
                     ++ AnalyzeWithGemini.closing)) by reflexivity.
  assert (E2 : AnalyzeWithGeminiForComment.build_prompt Sample.runtime (JObj []) [] None
               = Ok ((AnalyzeWithGeminiForComment.header Sample.runtime []
                      ++ AnalyzeWithGeminiForComment.files_heading)
                     ++ AnalyzeWithGeminiForComment.closing)) by reflexivity.
  rewrite E1 in H1. rewrite E2 in H2.
  apply Ok_inj in H1. apply Ok_inj in H2.
  apply app_inv_tail in H1. apply app_inv_tail in H2.
  rewrite <- H1 in H2. apply (f_equal (firstn 40)) in H2.
  vm_compute in H2. discriminate.
Qed.

(** C9, amended.  On the same input the two builders use the same allow-list
    and the same loop over the changes, and produce prompts that are
    identical except for the opening instruction line and the closing
    instruction: each is an empty line, the opening of its variant, the
    shared part, and the closing of its variant.  The shared part holds the
    title, the description, the user request, the heading and the file
    sections; when building it raises, both builders raise the same
    exception.  The two openings differ, and so do the two closings. *)
Theorem prompts_differ_in_opening_and_closing (RT : Runtime) (changes_data : json)
    (mr_info : list (pystr * json)) (user_prompt : option pystr) :
  AnalyzeWithGemini.code_extensions = AnalyzeWithGeminiForComment.code_extensions
  /\ (forall prompt changes,
        AnalyzeWithGeminiForComment.add_changes RT prompt changes
        = AnalyzeWithGemini.add_changes RT prompt changes)
  /\ AnalyzeWithGemini.build_prompt RT changes_data mr_info user_prompt
     = (m <-' shared_part RT changes_data mr_info user_prompt ;;
        Ok (nl ++ AnalyzeWithGemini.opening ++ m ++ AnalyzeWithGemini.closing))
  /\ AnalyzeWithGeminiForComment.build_prompt RT changes_data mr_info user_prompt
     = (m <-' shared_part RT changes_data mr_info user_prompt ;;
        Ok (nl ++ AnalyzeWithGeminiForComment.opening ++ m
            ++ AnalyzeWithGeminiForComment.closing))
  /\ AnalyzeWithGemini.opening <> AnalyzeWithGeminiForComment.opening
  /\ AnalyzeWithGemini.closing <> AnalyzeWithGeminiForComment.closing.
Proof.
  split; [reflexivity|]. split; [apply same_loop|].
  assert (shape : forall (opening closing : pystr) (build : result pystr),
            build = (changes <-' py_get changes_data (utf8 "changes") (JArr []) ;;
                     items <-' iter_items changes ;;
                     prompt <-' AnalyzeWithGemini.add_changes RT
                                  ((nl ++ opening)
                                   ++ shared_info RT mr_info
                                   ++ shared_request user_prompt
                                   ++ shared_heading) items ;;
                     Ok (prompt ++ closing)) ->
            build = (m <-' shared_part RT changes_data mr_info user_prompt ;;
                     Ok (nl ++ opening ++ m ++ closing))).
  { intros opening closing build ->. unfold shared_part.
    destruct (py_get changes_data _ _) as [changes|]; [|reflexivity].
    cbn [bind_result].
    destruct (iter_items changes) as [items|]; [|reflexivity].
    cbn [bind_result]. rewrite add_changes_prefix.
    match goal with |- context [AnalyzeWithGemini.add_changes RT ?p items] =>
      destruct (AnalyzeWithGemini.add_changes RT p items) end; [|reflexivity].
    cbn [bind_result]. now rewrite <- !app_assoc. }
  split; [|split; [|split]].
  - apply shape. unfold AnalyzeWithGemini.build_prompt.
    unfold AnalyzeWithGemini.header, AnalyzeWithGemini.user_request,
      AnalyzeWithGemini.files_heading.
    unfold shared_info, shared_request, shared_heading.
    destruct (prompt_given user_prompt); cbn [app];
      repeat rewrite <- ?app_assoc; reflexivity.
  - apply shape. unfold AnalyzeWithGeminiForComment.build_prompt.
    unfold AnalyzeWithGeminiForComment.header,
      AnalyzeWithGeminiForComment.user_request,
      AnalyzeWithGeminiForComment.files_heading.
    unfold shared_info, shared_request, shared_heading.
    destruct (prompt_given user_prompt); cbn [app];
      repeat rewrite <- ?app_assoc; reflexivity.
  - intros H. apply (f_equal (firstn 40)) in H. vm_compute in H. discriminate.
  - intros H. apply (f_equal (firstn 40)) in H. vm_compute in H. discriminate.
Qed.

(** ** C10: a trigger with nothing after it *)



(** * Further properties of the code *)

(** ** Trimming *)

Section StripFacts.

Lemma lstrip_suffix (s : pystr) : exists a, s = a ++ lstrip s.
Proof.
  induction s as [|c s [a IH]]; [now exists []|].
  cbn [lstrip]. destruct (isspace c); [|now exists []].
  exists (c :: a). cbn. now rewrite <- IH.
Qed.

Lemma rstrip_prefix (s : pystr) : exists b, s = rstrip s ++ b.
Proof.
  unfold rstrip. destruct (lstrip_suffix (rev s)) as [a E].
  exists (rev a). rewrite <- rev_app_distr, <- E. now rewrite rev_involutive.
Qed.

(** The trimmed string is a contiguous piece of the string. *)
Lemma strip_infix (s : pystr) : exists a b, s = a ++ strip s ++ b.
Proof.
  unfold strip. destruct (lstrip_suffix s) as [a Ea].
  destruct (rstrip_prefix (lstrip s)) as [b Eb].
  exists a, b. now rewrite <- Eb.
Qed.

Lemma lstrip_idem (s : pystr) : lstrip (lstrip s) = lstrip s.
Proof.
  induction s as [|c s IH]; [reflexivity|].
  cbn [lstrip]. destruct (isspace c) eqn:E; [exact IH|].
  cbn [lstrip]. now rewrite E.
Qed.

Lemma rstrip_idem (s : pystr) : rstrip (rstrip s) = rstrip s.
Proof. unfold rstrip. now rewrite rev_involutive, lstrip_idem. Qed.

Lemma lstrip_fixed_prefix (t t' b : pystr) :
  lstrip t = t -> t = t' ++ b -> lstrip t' = t'.
Proof.
  intros H ->. destruct t' as [|c t']; [reflexivity|].
  cbn [app lstrip] in *. destruct (isspace c); [|reflexivity].
  exfalso. destruct (lstrip_suffix (t' ++ b)) as [a E]. rewrite H in E.
  apply (f_equal (@List.length N)) in E.
  rewrite !length_app in E. cbn [List.length] in E. rewrite length_app in E. lia.
Qed.

Lemma strip_idem (s : pystr) : strip (strip s) = strip s.
Proof.
  unfold strip.
  destruct (rstrip_prefix (lstrip s)) as [b E].
  rewrite (lstrip_fixed_prefix (lstrip s) (rstrip (lstrip s)) b (lstrip_idem s) E).
  apply rstrip_idem.
Qed.

Lemma slice_from_suffix (s : pystr) (i : Z) : exists a, s = a ++ slice_from s i.
Proof.
  unfold slice_from.
  destruct (i <? 0)%Z; eexists; symmetry; apply firstn_skipn.
Qed.

End StripFacts.

Lemma scan_command_triggers_slice RT body triggers p :
  scan_command_triggers RT body triggers = Some p ->
  exists k, p = strip (slice_from body k).
Proof.
  induction triggers as [|t triggers IH]; [discriminate|].
  cbn [scan_command_triggers].
  destruct (contains t (lower RT body)); [|exact IH].
  destruct (negb _); [|exact IH].
  intros H. injection H as <-. eauto.
Qed.

Lemma scan_simple_triggers_whole RT body triggers p :
  scan_simple_triggers RT body triggers = Some p -> p = strip body.
Proof.
  induction triggers as [|t triggers IH]; [discriminate|].
  cbn [scan_simple_triggers].
  destruct (contains t (lower RT body)); [|exact IH]. congruence.
Qed.

(** X1.  Whatever the comment, an extracted prompt is trimmed (trimming it
    again changes nothing) and is a contiguous piece of the comment body:
    the handler never makes up text. *)
Theorem extracted_prompt_is_a_trimmed_piece (RT : Runtime) (body p : pystr) :
  extract_user_prompt RT body = Some p ->
  strip p = p /\ exists a b, body = a ++ p ++ b.
Proof.
  unfold extract_user_prompt.
  destruct (scan_command_triggers RT body command_triggers) as [q|] eqn:Hc.
  - intros H. injection H as <-.
    destruct (scan_command_triggers_slice RT body _ q Hc) as [k ->].
    split; [apply strip_idem|].
    destruct (slice_from_suffix body k) as [a Ea].
    destruct (strip_infix (slice_from body k)) as (a' & b & Eb).
    exists (a ++ a'), b. rewrite <- app_assoc, <- Eb. exact Ea.
  - intros H. apply scan_simple_triggers_whole in H. subst p.
    split; [apply strip_idem|apply strip_infix].
Qed.

Lemma extracted_prompt_is_a_trimmed_piece_example :
  strip (utf8 "please check null checks") = utf8 "please check null checks"
  /\ exists a b,
       utf8 "  /analyze please check null checks  "
       = a ++ utf8 "please check null checks" ++ b.
Proof.
  exact (extracted_prompt_is_a_trimmed_piece Sample.runtime
           (utf8 "  /analyze please check null checks  ")
           (utf8 "please check null checks") eq_refl).
Defined.

(** ** The simple phrases *)

(** X2.  Of the three simple phrases only the shortest decides: the loop
    over them yields the trimmed body exactly when the lowered body holds
    it, since the two longer phrases end with it. *)
Theorem short_phrase_decides (RT : Runtime) (body : pystr) :
  scan_simple_triggers RT body simple_triggers
  = if contains short_phrase (lower RT body) then Some (strip body) else None.
Proof.
  unfold simple_triggers. cbn [map scan_simple_triggers].
  fold short_phrase.
  destruct (contains short_phrase (lower RT body)) eqn:Hs.
  - now repeat destruct (contains _ _).
  - assert (H1 : contains (utf8 "코드리뷰") (lower RT body) = false).
    { destruct (contains (utf8 "코드리뷰") (lower RT body)) eqn:E; [|reflexivity].
      rewrite (contains_part short_phrase (utf8 "코드리뷰") _ eq_refl E) in Hs.
      discriminate. }
    assert (H2 : contains (utf8 "코드 리뷰") (lower RT body) = false).
    { destruct (contains (utf8 "코드 리뷰") (lower RT body)) eqn:E; [|reflexivity].
      rewrite (contains_part short_phrase (utf8 "코드 리뷰") _ eq_refl E) in Hs.
      discriminate. }
    now rewrite H1, H2.
Qed.

(** ** The path of an included file *)

Section SplitextFacts.

Lemma rfind_from_spec (ch : N) (s : pystr) :
  forall i last,
    rfind_from ch s i last = last
    \/ exists n, rfind_from ch s i last = (i + Z.of_nat n)%Z
                 /\ nth_error s n = Some ch.
Proof.
  induction s as [|c s IH]; intros i last; [now left|].
  cbn [rfind_from].
  destruct (IH (i + 1)%Z (if (c =? ch)%N then i else last)) as [E|(n & E & Hn)].
  - rewrite E. destruct (c =? ch)%N eqn:Hc; [|now left].
    right. exists 0%nat. apply N.eqb_eq in Hc. subst c. split; [lia|reflexivity].
  - right. exists (S n). split; [lia|exact Hn].
Qed.

(** [rfind] gives the last place of the character. *)
Lemma rfind_from_last (ch : N) (s : pystr) :
  forall i last n,
    (last < i)%Z ->
    nth_error s n = Some ch ->
    (i + Z.of_nat n <= rfind_from ch s i last)%Z.
Proof.
  induction s as [|c s IH]; intros i last n Hl Hn; [now destruct n|].
  cbn [rfind_from]. destruct n as [|n].
  - cbn in Hn. injection Hn as ->. rewrite N.eqb_refl.
    destruct (rfind_from_spec ch s (i + 1) i) as [E|(m & E & _)]; lia.
  - cbn in Hn.
    pose proof (IH (i + 1)%Z (if (c =? ch)%N then i else last) n
                  ltac:(destruct (c =? ch)%N; lia) Hn). lia.
Qed.

Lemma rfind_spec (ch : N) (s : pystr) :
  rfind ch s = (-1)%Z
  \/ exists n, rfind ch s = Z.of_nat n /\ nth_error s n = Some ch.
Proof.
  unfold rfind. destruct (rfind_from_spec ch s 0 (-1)) as [E|(n & E & Hn)];
    [now left|].
  right. exists n. split; [lia|exact Hn].
Qed.

Lemma rfind_last (ch : N) (s : pystr) (n : nat) :
  nth_error s n = Some ch -> (Z.of_nat n <= rfind ch s)%Z.
Proof.
  intros H. unfold rfind.
  pose proof (rfind_from_last ch s 0 (-1) n ltac:(lia) H). lia.
Qed.

(** The loop over the leading dots stops at a character that is no dot. *)
Lemma splitext_loop_spec (p : pystr) (d : Z) (steps : nat) :
  forall f,
    (0 <= f)%Z ->
    (Z.to_nat f + steps <= List.length p)%nat ->
    splitext_loop p d f steps = (p, [])
    \/ exists k c,
         (k < steps)%nat
         /\ nth_error p (Z.to_nat f + k) = Some c /\ c <> extsep
         /\ splitext_loop p d f steps = (slice_to p d, slice_from p d).
Proof.
  induction steps as [|n IH]; intros f Hf Hlen; [now left|].
  cbn [splitext_loop].
  destruct (str_eqb (slice_to (slice_from p f) 1) [extsep]) eqn:E.
  - destruct (IH (f + 1)%Z ltac:(lia) ltac:(lia))
      as [H|(k & c & Hk & Hn & Hc & H)]; [now left|].
    right. exists (S k), c. split; [lia|]. split; [|split; [exact Hc|exact H]].
    replace (Z.to_nat f + S k)%nat with (Z.to_nat (f + 1) + k)%nat by lia.
    exact Hn.
  - destruct (nth_error p (Z.to_nat f)) as [c|] eqn:Hn.
    2:{ apply nth_error_None in Hn. lia. }
    right. exists 0%nat, c. split; [lia|].
    rewrite Nat.add_0_r. split; [exact Hn|]. split; [|reflexivity].
    intros ->. revert E. unfold slice_from, slice_to.
    replace (f <? 0)%Z with false by (symmetry; apply Z.ltb_ge; lia).
    apply nth_error_split in Hn as (l1 & l2 & -> & Hl).
    rewrite <- Hl, skipn_app, skipn_all, Nat.sub_diag.
    change (Z.to_nat 1) with 1%nat. cbn [app skipn firstn Z.ltb Z.compare].
    unfold str_eqb. destruct (list_eq_dec _ _ _); congruence.
Qed.

(** A path with an extension: a character of the file name that is no dot,
    the rest of the stem, the last dot of the path and what follows it;
    no separator stands after that character. *)
Lemma splitext_spec (p : pystr) :
  splitext p = (p, [])
  \/ exists a c b ext,
       p = a ++ c :: b ++ extsep :: ext
       /\ splitext p = (a ++ c :: b, extsep :: ext)
       /\ c <> extsep /\ c <> sep
       /\ ~ In sep b /\ ~ In sep ext /\ ~ In extsep ext.
Proof.
  unfold splitext.
  destruct (rfind extsep p >? rfind sep p)%Z eqn:Hgt; [|now left].
  cbv zeta. apply Z.gtb_lt in Hgt.
  assert (Hsep : (-1 <= rfind sep p)%Z)
    by (destruct (rfind_spec sep p) as [->|(m & -> & _)]; lia).
  destruct (rfind_spec extsep p) as [Hd|(n & Hd & Hn)]; [lia|].
  assert (Hlt : (n < List.length p)%nat) by (apply nth_error_Some; congruence).
  destruct (splitext_loop_spec p (rfind extsep p)
              (Z.to_nat (rfind extsep p - (rfind sep p + 1)))
              (rfind sep p + 1) ltac:(lia) ltac:(lia))
    as [E|(k & c & Hk & Hc & Hne & E)]; [now left|].
  right. rewrite E. clear E.
  set (j := (Z.to_nat (rfind sep p + 1) + k)%nat) in *.
  assert (Hj : (j < n)%nat) by (unfold j; lia).
  assert (Hafter : forall m, (Z.to_nat (rfind sep p + 1) <= m)%nat ->
                             nth_error p m <> Some sep).
  { intros m Hm H. apply rfind_last in H. lia. }
  assert (Hdot : forall m, (n < m)%nat -> nth_error p m <> Some extsep).
  { intros m Hm H. apply rfind_last in H. lia. }
  apply nth_error_split in Hc as (a & l2 & Ep & Ha).
  assert (Hn2 : nth_error l2 (n - j - 1) = Some extsep).
  { rewrite Ep in Hn. rewrite nth_error_app2 in Hn by lia.
    rewrite Ha in Hn. replace (n - j)%nat with (S (n - j - 1)) in Hn by lia.
    exact Hn. }
  apply nth_error_split in Hn2 as (b & ext & El & Hb).
  assert (Ep' : p = a ++ c :: b ++ extsep :: ext) by (now rewrite Ep, El).
  assert (Hla : List.length (a ++ c :: b) = n)
    by (rewrite length_app; cbn [List.length]; lia).
  exists a, c, b, ext. split; [exact Ep'|]. split.
  - unfold slice_to, slice_from. rewrite Hd.
    replace (Z.of_nat n <? 0)%Z with false by (symmetry; apply Z.ltb_ge; lia).
    rewrite Nat2Z.id.
    replace p with ((a ++ c :: b) ++ extsep :: ext)
      by (now rewrite Ep', <- app_assoc).
    rewrite <- Hla. now rewrite firstn_app, firstn_all, Nat.sub_diag,
      skipn_app, skipn_all, Nat.sub_diag, app_nil_r.
  - split; [exact Hne|].
    assert (Hat : forall t x l r, p = l ++ r -> nth_error r t = Some x ->
                                  nth_error p (List.length l + t) = Some x).
    { intros t x l r -> H. rewrite nth_error_app2 by lia.
      now replace (List.length l + t - List.length l)%nat with t by lia. }
    split; [|split; [|split]].
    + intros ->. apply (Hafter j); [unfold j; lia|].
      rewrite <- Ha. rewrite <- (Nat.add_0_r (List.length a)).
      now apply (Hat 0%nat sep a (sep :: l2)).
    + intros Hin. apply In_nth_error in Hin as [t Ht].
      apply (Hafter (List.length (a ++ [c]) + t)%nat).
      * rewrite length_app. cbn [List.length]. unfold j in *. lia.
      * apply (Hat t sep (a ++ [c]) (b ++ extsep :: ext)).
        -- now rewrite Ep', <- app_assoc.
        -- rewrite nth_error_app1; [exact Ht|].
           apply nth_error_Some. congruence.
    + intros Hin. apply In_nth_error in Hin as [t Ht].
      apply (Hafter (List.length (a ++ c :: b ++ [extsep]) + t)%nat).
      * rewrite !length_app. cbn [List.length]. rewrite length_app.
        cbn [List.length]. unfold j in *. lia.
      * apply (Hat t sep (a ++ c :: b ++ [extsep]) ext); [|exact Ht].
        rewrite Ep', <- !app_assoc. cbn [app]. now rewrite <- app_assoc.
    + intros Hin. apply In_nth_error in Hin as [t Ht].
      apply (Hdot (List.length (a ++ c :: b ++ [extsep]) + t)%nat).
      * rewrite !length_app. cbn [List.length]. rewrite length_app.
        cbn [List.length]. lia.
      * apply (Hat t extsep (a ++ c :: b ++ [extsep]) ext); [|exact Ht].
        rewrite Ep', <- !app_assoc. cbn [app]. now rewrite <- app_assoc.
Qed.

End SplitextFacts.

(** X3.  A path whose file reaches the prompt has the form
    directory part, a character of the file name that is neither a dot nor
    a separator, the rest of the stem, the last dot, and an extension that
    holds no dot and no separator and whose lowercase (dot included) is in
    the allow-list.  A file name made of dots and an extension only, such
    as [.py], is left out. *)
Theorem included_path_has_a_stem (RT : Runtime) (p : pystr) :
  source_file RT p = true ->
  exists a c b ext,
    p = a ++ c :: b ++ extsep :: ext
    /\ c <> extsep /\ c <> sep
    /\ ~ In sep b /\ ~ In sep ext /\ ~ In extsep ext
    /\ In (lower RT (extsep :: ext)) AnalyzeWithGemini.code_extensions.
Proof.
  unfold source_file. intros H.
  destruct (splitext_spec p) as [E|(a & c & b & ext & Ep & E & H1 & H2 & H3 & H4 & H5)].
  - rewrite E in H. discriminate.
  - exists a, c, b, ext. rewrite E in H. cbn [snd] in H.
    repeat (split; [assumption|]).
    apply existsb_exists in H as (x & Hin & Hx).
    apply str_eqb_eq in Hx. now rewrite Hx.
Qed.

Lemma included_path_has_a_stem_example :
  exists a c b ext,
    utf8 "src/Main.GO" = a ++ c :: b ++ extsep :: ext
    /\ c <> extsep /\ c <> sep
    /\ ~ In sep b /\ ~ In sep ext /\ ~ In extsep ext
    /\ In (lower Sample.runtime (extsep :: ext)) AnalyzeWithGemini.code_extensions.
Proof.
  exact (included_path_has_a_stem Sample.runtime (utf8 "src/Main.GO") eq_refl).
Defined.

(** ** The calls to GitLab, case by case *)

(** X4.  [get_mr_changes] makes one request and normalises every failure
    to [None]: it returns the decoded body on HTTP 200 with a body that
    decodes, and [None] on any other status, on a body that does not decode
    and on any exception of the request.  Only its handler of a timeout can
    raise: it prints the project and the merge request. *)
Theorem get_mr_changes_body_or_none (RT : Runtime) (w : World) (p i : json) :
  get_mr_changes RT w p i
  = ([GetChanges p i],
     match changes_reply w p i with
     | Response status_code (Some body) =>
         Ok (if (status_code =? 200)%Z then body else JNull)
     | Timeout => _ <-' py_print RT [p; i] ;; Ok JNull
     | _ => Ok JNull
     end).
Proof.
  unfold get_mr_changes.
  destruct (changes_reply w p i) as [| |st [v|]]; cbn -[py_print];
    try reflexivity.
  - destruct (py_print RT [p; i]) as [[]|e]; reflexivity.
  - destruct (st =? 200)%Z; reflexivity.
  - destruct (st =? 200)%Z; reflexivity.
Qed.

(** X5.  [post_comment_to_mr] prints the URL first: when the project or the
    merge request cannot be printed it raises and posts nothing.  Otherwise
    it posts once and returns, with [True] exactly when the answer is HTTP
    200 or 201. *)
Theorem post_comment_to_mr_reports_the_status (RT : Runtime) (w : World)
    (p i : json) (c : pystr) :
  (py_print RT [p; i] = Raise UnicodeEncodeError
   /\ post_comment_to_mr RT w p i c = ([], Raise UnicodeEncodeError))
  \/ exists ok,
       post_comment_to_mr RT w p i c = ([PostNote p i c], Ok ok)
       /\ (ok = true
           <-> exists st body,
                 notes_reply w p i c = Response st body
                 /\ (st = 200 \/ st = 201)%Z).
Proof.
  unfold post_comment_to_mr.
  destruct (py_print RT [p; i]) as [[]|e] eqn:Hp.
  2:{ left. apply py_print_raises in Hp. subst e. split; reflexivity. }
  right. rewrite bind_lift_ok.
  destruct (notes_reply w p i c) as [| |st b]; cbn -[py_print]; rewrite ?Hp.
  1,2: exists false; split; [reflexivity|];
       split; [discriminate|intros (? & ? & ? & _); discriminate].
  destruct (st =? 200)%Z eqn:E200; cbn.
  - exists true. split; [reflexivity|]. split; [|reflexivity].
    intros _. exists st, b. apply Z.eqb_eq in E200. auto.
  - destruct (st =? 201)%Z eqn:E201; cbn.
    + exists true. split; [reflexivity|]. split; [|reflexivity].
      intros _. exists st, b. apply Z.eqb_eq in E201. auto.
    + exists false. split; [reflexivity|]. split; [discriminate|].
      intros (st' & b' & H & Hst). injection H as -> _.
      apply Z.eqb_neq in E200, E201. lia.
Qed.


(** The merge request the third lookup settles on: the first of the list
    whose [id] equals the internal id of the note. *)
Lemma find_iid_first (mrs : list json) (n v : json) :
  find_iid mrs n = Ok v ->
  v = JNull
  \/ exists pre kv post,
       mrs = pre ++ JObj kv :: post
       /\ py_eq (get_default kv (utf8 "id") JNull) n = true
       /\ get_default kv (utf8 "iid") JNull = v
       /\ Forall (fun mr => exists kv', mr = JObj kv'
                   /\ py_eq (get_default kv' (utf8 "id") JNull) n = false) pre.
Proof.
  induction mrs as [|mr mrs IH]; cbn [find_iid].
  - intros H. left. now injection H.
  - destruct mr as [| | | | |kv]; try discriminate.
    cbn [py_get bind_result]. fold (get_default kv (utf8 "id") JNull).
    destruct (py_eq (get_default kv (utf8 "id") JNull) n) eqn:E.
    + intros H. right. exists [], kv, mrs. repeat split; auto.
      now injection H.
    + intros H. destruct (IH H) as [->|(pre & kv' & post & -> & H1 & H2 & H3)];
        [now left|].
      right. exists (JObj kv :: pre), kv', post. repeat split; auto.
      constructor; eauto.
Qed.

(** X7.  The third lookup of the merge request makes one request and never
    raises.  When it finds an iid, the answer was HTTP 200 with a list, and
    the iid is that of the first merge request of the list whose [id]
    equals the internal id of the note. *)
Theorem lookup_iid_first_match (w : World) (p n : json) :
  exists v,
    lookup_iid w p n = ([ListMergeRequests p], Ok v)
    /\ (v = JNull
        \/ exists mrs pre kv post,
             merge_requests_reply w p = Response 200 (Some mrs)
             /\ iter_items mrs = Ok (pre ++ JObj kv :: post)
             /\ py_eq (get_default kv (utf8 "id") JNull) n = true
             /\ get_default kv (utf8 "iid") JNull = v
             /\ Forall (fun mr => exists kv', mr = JObj kv'
                         /\ py_eq (get_default kv' (utf8 "id") JNull) n = false)
                  pre).
Proof.
  unfold lookup_iid.
  destruct (merge_requests_reply w p) as [| |st b]; cbn; eauto.
  destruct (st =? 200)%Z eqn:E; cbn; eauto.
  apply Z.eqb_eq in E. subst st.
  destruct b as [mrs|]; cbn; eauto.
  destruct (iter_items mrs) as [items|] eqn:Ei; cbn; eauto.
  destruct (find_iid items n) as [v|] eqn:Ef; cbn; eauto.
  exists v. split; [reflexivity|].
  destruct (find_iid_first items n v Ef) as [->|(pre & kv & post & -> & H)];
    [now left|].
  right. exists mrs, pre, kv, post. auto.
Qed.

(** ** The endpoint on object payloads *)

(** X8.  A request other than GET whose body parses to a JSON object: when
    its [object_kind] cannot be printed the view raises; otherwise it
    answers 202 with status accepted and starts one thread on the payload
    itself, the merge-request handler for kind merge_request and the note
    handler for kind note, or answers 200 with status ignored and starts
    nothing for any other kind. *)
Theorem webhook_answers_object_payloads (RT : Runtime) (req : request)
    (kv : list (pystr * json)) :
  method req <> GET ->
  request_json req = Some (JObj kv) ->
  let kind := get_default kv (utf8 "object_kind") (JStr (utf8 "알 수 없음")) in
  if negb (printable RT kind) then
    gitlab_webhook RT req = Raise UnicodeEncodeError
  else
    exists r,
      gitlab_webhook RT req
      = Ok (r, if py_eq kind k_merge_request then [ProcessMr (JObj kv)]
               else if py_eq kind k_note then [ProcessNote (JObj kv)]
               else [])
      /\ (code r, status r)
         = if py_eq kind k_merge_request || py_eq kind k_note
           then (202%Z, utf8 "accepted") else (200%Z, utf8 "ignored").
Proof.
  intros Hm Hj kind. unfold gitlab_webhook. rewrite Hj.
  cbn [py_get bind_result]. fold (get_default kv (utf8 "object_kind")
                                   (JStr (utf8 "알 수 없음"))). fold kind.
  unfold py_print. cbn [forallb]. rewrite andb_true_r.
  unfold k_merge_request, k_note.
  destruct (method req); [congruence| |];
    (destruct (printable RT kind); cbn [negb bind_result]; [|reflexivity];
     destruct (py_eq kind (JStr (utf8 "merge_request")));
     [eexists; split; reflexivity|];
     destruct (py_eq kind (JStr (utf8 "note")));
     eexists; split; reflexivity).
Qed.

Lemma webhook_answers_object_payloads_example :
  (exists r,
     gitlab_webhook Sample.runtime (post_of (Sample.note_event "/review"))
     = Ok (r, [ProcessNote (Sample.note_event "/review")])
     /\ (code r, status r) = (202%Z, utf8 "accepted"))
  /\ (exists r,
        gitlab_webhook Sample.runtime
          (post_of (Sample.obj [("object_kind", Sample.str "push")]%string))
        = Ok (r, [])
        /\ (code r, status r) = (200%Z, utf8 "ignored")).
Proof.
  split.
  - exact (webhook_answers_object_payloads Sample.runtime
             (post_of (Sample.note_event "/review")) _
             ltac:(discriminate) eq_refl).
  - exact (webhook_answers_object_payloads Sample.runtime
             (post_of (Sample.obj [("object_kind", Sample.str "push")]%string)) _
             ltac:(discriminate) eq_refl).
Defined.

(** ** Runs of the handlers, end to end *)

Lemma bind_ret {A B} (a : A) (k : A -> M B) : bind (ret a) k = k a.
Proof. apply (bind_lift_ok a k). Qed.

(** X9.  A note hook whose [noteable_type] is not MergeRequest (a comment
    on an issue, a commit, a snippet) makes no outbound call at all: the
    handler logs that it is no comment on a merge request and returns, or
    an exception ends it before any call. *)
Theorem other_noteable_is_left_alone (RT : Runtime) (w : World)
    (data note : list (pystr * json)) :
  get_default data (utf8 "object_attributes") (JObj []) = JObj note ->
  get_default note (utf8 "noteable_type") JNull <> k_MergeRequest ->
  let r := process_note_in_background RT w (JObj data) in
  r = ([Log LogNotMergeRequest], Ok tt) \/ exists e, r = ([], Raise e).
Proof.
  intros Hnote Htype. cbv zeta. unfold process_note_in_background, log.
  cbn [py_get]. fold (get_default data (utf8 "object_attributes") (JObj [])).
  rewrite Hnote, !bind_lift_ok. cbn [py_get]. rewrite !bind_lift_ok.
  lift_as project_id; [|right; eauto].
  rewrite !bind_lift_ok.
  fold (get_default note (utf8 "noteable_type") JNull).
  unfold resolve_mr_iid.
  rewrite (py_eq_str_false _ _ Htype), bind_ret. cbn [negb orb].
  print_as Hp; [|right; eauto].
  printed Hp. rewrite bind_lift_ok. now left.
Qed.

Lemma other_noteable_is_left_alone_example :
  process_note_in_background Sample.runtime Sample.world_up Cases.issue_note
  = ([Log LogNotMergeRequest], Ok tt).
Proof.
  destruct (other_noteable_is_left_alone Sample.runtime Sample.world_up
              (map (fun kv => (utf8 (fst kv), snd kv))
                 [("object_kind", Sample.str "note");
                  ("user", Sample.obj [("username", Sample.str "dev")]);
                  ("project", Sample.obj [("id", JInt 7)]);
                  ("object_attributes",
                   Sample.obj [("id", JInt 100); ("note", Sample.str "/review");
                               ("noteable_type", Sample.str "Issue");
                               ("noteable_id", JInt 55)])]%string)
              _ eq_refl ltac:(discriminate)) as [H|[e H]].
  - exact H.
  - discriminate H.
Defined.

(** X10.  End to end: a merge request hook with action open or update is
    answered 202, and its thread fetches the changes of the project and the
    merge request named in the hook, has one text generated from the prompt
    built with the title and the description of the hook, and posts one
    comment, the review template around that text, on the same merge
    request, provided the changes are fetched and not empty, the prompt
    builds and the values shown in the log can be printed. *)
Theorem opened_merge_request_is_reviewed (RT : Runtime) (w : World)
    (data : json) (attrs : list (pystr * json)) (changes : json)
    (prompt : pystr) :
  let action := get_default attrs (utf8 "action") JNull in
  let p := get_default attrs (utf8 "target_project_id") JNull in
  let i := get_default attrs (utf8 "iid") JNull in
  object_kind_of data = Ok k_merge_request ->
  py_get data (utf8 "object_attributes") (JObj []) = Ok (JObj attrs) ->
  action = a_open \/ action = a_update ->
  py_print RT [p; i] = Ok tt ->
  changes_reply w p i = Response 200 (Some changes) ->
  truthy changes = true ->
  mr_prompt RT (JObj attrs) changes = Ok prompt ->
  generation_printable RT w prompt = true ->
  (exists r,
     gitlab_webhook RT (post_of data) = Ok (r, [ProcessMr data])
     /\ code r = 202%Z)
  /\ run_thread RT w (ProcessMr data)
     = ([GetChanges p i; GenerateContent prompt;
         PostNote p i (review_comment (generated_text w prompt))], Ok tt).
Proof.
  intros action p i Hkind Hattrs Haction Hprint Hreply Htruthy Hprompt Hgen.
  split.
  - unfold gitlab_webhook, post_of. cbn [method request_json].
    unfold object_kind_of in Hkind. rewrite Hkind. cbn [bind_result].
    eexists. split; reflexivity.
  - cbn [run_thread]. unfold process_mr_in_background.
    rewrite Hattrs, !bind_lift_ok. cbn [py_get]. rewrite !bind_lift_ok.
    fold (get_default attrs (utf8 "action") JNull).
    fold (get_default attrs (utf8 "target_project_id") JNull).
    fold (get_default attrs (utf8 "iid") JNull).
    fold action p i.
    assert (Hin : existsb (py_eq action) [JStr (utf8 "open"); JStr (utf8 "update")]
                  = true)
      by (destruct Haction as [-> | ->]; reflexivity).
    rewrite Hin. cbn [negb]. rewrite Hprint, bind_lift_ok.
    rewrite (get_mr_changes_run RT w p i Hprint), bind_run.
    unfold fetched. rewrite Hreply. cbn [Z.eqb Pos.eqb]. rewrite Htruthy.
    cbn [negb]. rewrite (review_changes_run RT w _ p i _ Hprint), Hprompt, Hgen.
    reflexivity.
Qed.

Lemma opened_merge_request_is_reviewed_example :
  exists prompt,
    mr_prompt Sample.runtime (JObj Cases.mr_attrs) Sample.changes = Ok prompt
    /\ run_thread Sample.runtime Sample.world_up (ProcessMr (Sample.mr_event "open"))
       = ([GetChanges (JInt 7) (JInt 3); GenerateContent prompt;
           PostNote (JInt 7) (JInt 3) (review_comment (utf8 "LGTM"))], Ok tt).
Proof.
  eexists. split; [reflexivity|].
  exact (proj2 (opened_merge_request_is_reviewed Sample.runtime Sample.world_up
                  (Sample.mr_event "open") Cases.mr_attrs Sample.changes _
                  eq_refl eq_refl (or_introl eq_refl) eq_refl eq_refl eq_refl
                  eq_refl eq_refl)).
Defined.

(** X11.  When the generation raises, both handlers post the message of the
    failure inside their review template, signature included, as if it were
    a review; when that message cannot be printed, the handler of the
    failure raises and nothing is posted. *)
Theorem generation_failure_is_posted (RT : Runtime) (w : World)
    (attrs p i n u c : json) (up prompt prompt' message message' : pystr) :
  py_print RT [p; i; n] = Ok tt ->
  mr_prompt RT attrs c = Ok prompt ->
  generate_content w prompt = GenerationError message ->
  AnalyzeWithGeminiForComment.build_prompt RT c (fetched_info w p i) (Some up)
  = Ok prompt' ->
  generate_content w prompt' = GenerationError message' ->
  review_changes RT w attrs p i c
  = (if printable RT (JStr message) then
       ([GenerateContent prompt;
         PostNote p i (review_comment (generation_error_text message))], Ok tt)
     else ([GenerateContent prompt], Raise UnicodeEncodeError))
  /\ requested_review RT w p i n u c up
     = (if printable RT (JStr message') then
          ([GetMergeRequest p i; GenerateContent prompt';
            PostNote p i
              (requested_review_comment RT (generation_error_text message') u)],
           Ok tt)
        else ([GetMergeRequest p i; GenerateContent prompt'],
              Raise UnicodeEncodeError)).
Proof.
  intros Hprint Hp Hg Hp' Hg'.
  assert (Hpi : py_print RT [p; i] = Ok tt)
    by (apply (py_print_incl RT _ _ Hprint); intros ? ?; cbn [In] in *; tauto).
  split.
  - rewrite (review_changes_run RT w attrs p i c Hpi), Hp.
    unfold generation_printable, generated_text, generation_error_text.
    rewrite Hg. reflexivity.
  - rewrite (requested_review_run RT w p i n u c up Hprint), Hp'.
    unfold generation_printable, generated_text, generation_error_text.
    rewrite Hg'. reflexivity.
Qed.

Lemma generation_failure_is_posted_example :
  exists prompt,
    mr_prompt Sample.runtime (JObj Cases.mr_attrs) Sample.changes = Ok prompt
    /\ review_changes Sample.runtime Cases.world_generation_down
         (JObj Cases.mr_attrs) (JInt 7) (JInt 3) Sample.changes
       = ([GenerateContent prompt;
           PostNote (JInt 7) (JInt 3)
             (review_comment
                (generation_error_text (utf8 "429 quota exceeded")))],
          Ok tt).
Proof.
  destruct (mr_prompt Sample.runtime (JObj Cases.mr_attrs) Sample.changes)
    as [prompt|e] eqn:Hp; [|discriminate Hp].
  destruct (AnalyzeWithGeminiForComment.build_prompt Sample.runtime Sample.changes
              (fetched_info Cases.world_generation_down (JInt 7) (JInt 3))
              (Some (utf8 "tests"))) as [prompt'|e] eqn:Hp'; [|discriminate Hp'].
  exists prompt. split; [reflexivity|].
  exact (proj1 (generation_failure_is_posted Sample.runtime
                  Cases.world_generation_down (JObj Cases.mr_attrs)
                  (JInt 7) (JInt 3) (JInt 100) (Sample.str "dev") Sample.changes
                  (utf8 "tests") prompt prompt' (utf8 "429 quota exceeded")
                  (utf8 "429 quota exceeded")
                  eq_refl Hp eq_refl Hp' eq_refl)).
Defined.

(** A record without a path makes the loop raise. *)
Lemma add_change_not_record RT prompt change :
  ~ change_record change ->
  exists e, AnalyzeWithGemini.add_change RT prompt change = Raise e.
Proof.
  intros H. unfold AnalyzeWithGemini.add_change.
  destruct change as [| | | | |kv]; try (eexists; reflexivity).
  cbn [py_get bind_result]. fold (path_of kv).
  destruct (path_of kv) as [| | |p| |] eqn:E; try (eexists; reflexivity).
  exfalso. apply H. exists kv, p. split; [reflexivity|exact E].
Qed.

Lemma add_changes_not_record RT changes change :
  In change changes -> ~ change_record change ->
  forall prompt, exists e, AnalyzeWithGemini.add_changes RT prompt changes = Raise e.
Proof.
  intros Hin Hbad. induction changes as [|c changes IH]; [contradiction|].
  intros prompt. cbn [AnalyzeWithGemini.add_changes].
  destruct Hin as [->|Hin].
  - destruct (add_change_not_record RT prompt change Hbad) as [e ->].
    exists e. reflexivity.
  - destruct (AnalyzeWithGemini.add_change RT prompt c) as [prompt'|e];
      cbn [bind_result]; [apply IH; exact Hin|exists e; reflexivity].
Qed.

(** X12.  One change record without a path that is a string (a record that
    is no object, or whose [new_path] is [null]) makes both prompt builders
    raise, whatever the other records are; the review stops there, before
    any text is generated and with no comment posted. *)
Theorem malformed_record_aborts_the_review (RT : Runtime) (w : World)
    (changes_data : list (pystr * json)) (changes : list json)
    (change p i n : json) :
  get_default changes_data (utf8 "changes") (JArr []) = JArr changes ->
  In change changes ->
  ~ change_record change ->
  py_print RT [p; i; n] = Ok tt ->
  (forall mr_info user_prompt,
     exists e, AnalyzeWithGemini.build_prompt RT (JObj changes_data) mr_info
                 user_prompt = Raise e)
  /\ (forall attrs,
        exists e, review_changes RT w attrs p i (JObj changes_data)
                  = ([], Raise e))
  /\ (forall u up,
        exists e, requested_review RT w p i n u (JObj changes_data) up
                  = ([GetMergeRequest p i], Raise e)).
Proof.
  intros Hc Hin Hbad Hprint.
  assert (Hpi : py_print RT [p; i] = Ok tt)
    by (apply (py_print_incl RT _ _ Hprint); intros ? ?; cbn [In] in *; tauto).
  assert (Hbuild : forall mr_info user_prompt,
             exists e, AnalyzeWithGemini.build_prompt RT (JObj changes_data)
                         mr_info user_prompt = Raise e).
  { intros mr_info user_prompt. unfold AnalyzeWithGemini.build_prompt.
    cbn [py_get]. fold (get_default changes_data (utf8 "changes") (JArr [])).
    rewrite Hc. cbn [bind_result iter_items].
    match goal with
    | |- context [AnalyzeWithGemini.add_changes RT ?pr changes] =>
        destruct (add_changes_not_record RT changes change Hin Hbad pr) as [e He];
        rewrite He
    end.
    exists e. reflexivity. }
  split; [exact Hbuild|]. split.
  - intros attrs. rewrite (review_changes_run RT w attrs p i _ Hpi).
    unfold mr_prompt.
    destruct (py_get attrs (utf8 "title") (JStr [])) as [title|e];
      [|exists e; reflexivity].
    destruct (py_get attrs (utf8 "description") (JStr [])) as [description|e];
      [|exists e; reflexivity].
    cbn [bind_result].
    destruct (Hbuild [(utf8 "title", title); (utf8 "description", description)]
                None) as [e He].
    rewrite He. exists e. reflexivity.
  - intros u up. rewrite (requested_review_run RT w p i n u _ up Hprint).
    unfold AnalyzeWithGeminiForComment.build_prompt. cbn [py_get].
    fold (get_default changes_data (utf8 "changes") (JArr [])). rewrite Hc.
    cbn [bind_result iter_items]. rewrite same_loop.
    match goal with
    | |- context [AnalyzeWithGemini.add_changes RT ?pr changes] =>
        destruct (add_changes_not_record RT changes change Hin Hbad pr) as [e He];
        rewrite He
    end.
    exists e. reflexivity.
Qed.

Lemma malformed_record_aborts_the_review_example :
  let changes_data :=
    Sample.obj [("changes", JArr [Cases.pathless_change])]%string in
  (exists e, review_changes Sample.runtime Sample.world_up (JObj Cases.mr_attrs)
               (JInt 7) (JInt 3) changes_data = ([], Raise e))
  /\ (exists e, requested_review Sample.runtime Sample.world_up (JInt 7) (JInt 3)
                  (JInt 100) (Sample.str "dev") changes_data (utf8 "tests")
                = ([GetMergeRequest (JInt 7) (JInt 3)], Raise e)).
Proof.
  cbv zeta.
  assert (Hbad : ~ change_record Cases.pathless_change).
  { intros (kv & p & H1 & H2). injection H1 as <-. discriminate H2. }
  destruct (malformed_record_aborts_the_review Sample.runtime Sample.world_up
              (map (fun kv => (utf8 (fst kv), snd kv))
                 [("changes", JArr [Cases.pathless_change])]%string)
              [Cases.pathless_change] Cases.pathless_change
              (JInt 7) (JInt 3) (JInt 100)
              eq_refl (or_introl eq_refl) Hbad eq_refl) as (_ & Hmr & Hnote).
  split; [apply Hmr|apply Hnote].
Defined.

(** X13.  A run of either handler posts at most one comment, and it posts
    it on the project and the merge request whose changes it has fetched
    before. *)
Theorem one_comment_per_run (RT : Runtime) (w : World) (data : json) :
  let mr := trace (process_mr_in_background RT w data) in
  let note := trace (process_note_in_background RT w data) in
  (List.length (posted mr) <= 1)%nat
  /\ (List.length (posted note) <= 1)%nat
  /\ (forall p i c, In (p, i, c) (posted mr) -> In (GetChanges p i) mr)
  /\ (forall p i c, In (p, i, c) (posted note) -> In (GetChanges p i) note).
Proof.
  cbv zeta.
  assert (Hmr : (List.length (posted (trace (process_mr_in_background RT w data)))
                 <= 1)%nat
                /\ forall p i c,
                     In (p, i, c) (posted (trace (process_mr_in_background RT w data)))
                     -> In (GetChanges p i)
                          (trace (process_mr_in_background RT w data))).
  { destruct (process_mr_run RT w data)
      as [[e ->]|[[a ->]|(attrs & p' & i' & Hp & ->)]].
    - split; [cbn; lia|intros p i c []].
    - split; [cbn; lia|intros p i c []].
    - destruct (truthy _); [|split; [cbn; lia|intros p i c []]].
      cbv zeta. rewrite (review_changes_run RT w attrs p' i' _ Hp).
      destruct (mr_prompt RT attrs (fetched w p' i')) as [prompt|e];
        [destruct (generation_printable RT w prompt)|];
        cbn [trace fst posted List.length];
        (split; [lia|]); intros p i c Hin; try (destruct Hin; fail).
      destruct Hin as [H|[]]. injection H as <- <- _. left. reflexivity. }
  assert (Hnote : (List.length (posted (trace (process_note_in_background RT w data)))
                   <= 1)%nat
                  /\ forall p i c,
                       In (p, i, c)
                         (posted (trace (process_note_in_background RT w data)))
                       -> In (GetChanges p i)
                            (trace (process_note_in_background RT w data))).
  { destruct (process_note_quiet_or_review RT w data) as [Hq|H].
    - rewrite (posted_quiet _ Hq). split; [cbn; lia|intros p i c []].
    - destruct H as (pre & e & p' & i' & n & u & body & up
                     & _ & _ & _ & Hq & He & Hp & ->).
      cbv zeta. cbn [trace fst]. rewrite posted_app, (posted_quiet _ Hq).
      cbn [app].
      assert (Hpe : forall t, posted (e :: t) = posted t)
        by (intros t; destruct He as [[_ ->]|(_ & _ & ->)]; reflexivity).
      rewrite Hpe.
      assert (Hsub : forall p i, In (GetChanges p i)
                                   (trace (review_on_request RT w p' i' n u up))
                                 -> In (GetChanges p i)
                                      (pre ++ e :: trace (review_on_request RT w
                                                            p' i' n u up)))
        by (intros p i Hin; apply in_or_app; right; right; exact Hin).
      rewrite (review_on_request_run RT w p' i' n u up Hp) in *.
      destruct (truthy _).
      + cbv zeta in *. rewrite (requested_review_run RT w p' i' n u _ up Hp) in *.
        destruct (AnalyzeWithGeminiForComment.build_prompt RT _ _ _) as [prompt|e'];
          [destruct (generation_printable RT w prompt)|];
          cbn [trace fst posted List.length] in *;
          (split; [lia|]); intros p i c Hin; try (destruct Hin; fail).
        destruct Hin as [H|[]]. injection H as <- <- _. apply Hsub. left.
        reflexivity.
      + cbn [trace fst posted List.length] in *. split; [lia|].
        intros p i c [H|[]]. injection H as <- <- _. apply Hsub. left.
        reflexivity. }
  destruct Hmr as [A B], Hnote as [C D]. auto.
Qed.

(** X14.  An answer HTTP 200 whose body is falsy (an empty object, an empty
    list, [null], zero) counts as a failed fetch: the requested review
    posts the fixed explanation and generates nothing. *)
Theorem empty_changes_count_as_failure (RT : Runtime) (w : World)
    (p i n u v : json) (up : pystr) :
  changes_reply w p i = Response 200 (Some v) ->
  truthy v = false ->
  py_print RT [p; i; n] = Ok tt ->
  review_on_request RT w p i n u up
  = ([GetChanges p i; Log LogNoChanges; PostNote p i no_changes_comment], Ok tt).
Proof.
  intros Hreply Hv Hprint.
  rewrite (review_on_request_run RT w p i n u up Hprint).
  unfold fetched. rewrite Hreply. cbn [Z.eqb Pos.eqb]. rewrite Hv. reflexivity.
Qed.

Lemma empty_changes_count_as_failure_example :
  review_on_request Sample.runtime Cases.world_empty_changes (JInt 7) (JInt 3)
    (JInt 100) (Sample.str "dev") (utf8 "tests")
  = ([GetChanges (JInt 7) (JInt 3); Log LogNoChanges;
      PostNote (JInt 7) (JInt 3) no_changes_comment], Ok tt).
Proof.
  exact (empty_changes_count_as_failure Sample.runtime Cases.world_empty_changes
           (JInt 7) (JInt 3) (JInt 100) (Sample.str "dev") (JObj [])
           (utf8 "tests") eq_refl eq_refl eq_refl).
Defined.

(** X15.  The prompt of [analyze_with_gemini_for_comment] for a changeset
    whose records have a path (a missing [changes] key is an empty list):
    its head, then what each record contributes, in order, under the same
    allow-list as the full review, then its closing instruction. *)
Theorem comment_sections_follow_the_allow_list (RT : Runtime)
    (changes_data : list (pystr * json)) (changes : list json)
    (mr_info : list (pystr * json)) (user_prompt : option pystr) :
  get_default changes_data (utf8 "changes") (JArr []) = JArr changes ->
  Forall change_record changes ->
  AnalyzeWithGeminiForComment.build_prompt RT (JObj changes_data) mr_info
    user_prompt
  = Ok (comment_prompt_head RT mr_info user_prompt
        ++ flat_map (contribution RT) changes
        ++ AnalyzeWithGeminiForComment.closing).
Proof.
  intros Hc Hrec. unfold AnalyzeWithGeminiForComment.build_prompt.
  cbn [py_get]. fold (get_default changes_data (utf8 "changes") (JArr [])).
  rewrite Hc. cbn [bind_result iter_items].
  rewrite same_loop, (add_changes_records RT changes Hrec). cbn [bind_result].
  unfold comment_prompt_head.
  destruct (prompt_given user_prompt); rewrite <- !app_assoc; reflexivity.
Qed.

Lemma comment_sections_follow_the_allow_list_example :
  AnalyzeWithGeminiForComment.build_prompt Sample.runtime Sample.changes []
    (Some (utf8 "tests"))
  = Ok (comment_prompt_head Sample.runtime [] (Some (utf8 "tests"))
        ++ file_section Sample.runtime (utf8 "main.go")
             [(utf8 "old_path", Sample.str "main.go");
              (utf8 "new_path", Sample.str "main.go");
              (utf8 "diff", Sample.str "+func main() {}")]
        ++ AnalyzeWithGeminiForComment.closing).
Proof.
  refine (comment_sections_follow_the_allow_list Sample.runtime _ _ []
            (Some (utf8 "tests"))
            (eq_refl : get_default [(utf8 "changes", _)] (utf8 "changes") (JArr [])
                       = JArr _) _).
  repeat constructor; do 2 eexists; (split; [reflexivity|reflexivity]).
Defined.

(** X16.  No feedback loop through the reviews: a comment posted by the
    merge-request handler, or by the note handler other than the fixed
    explanation of a failed fetch, is skipped when it comes back as a note
    hook, whatever the payload around it. *)
Theorem own_review_is_not_answered (RT : Runtime) (w w' : World)
    (data data' p i : json) (c : pystr) :
  In (p, i, c) (posted (trace (process_mr_in_background RT w data)))
  \/ (In (p, i, c) (posted (trace (process_note_in_background RT w data)))
      /\ c <> no_changes_comment) ->
  note_body_of data' = Some (JStr c) ->
  Forall quiet (trace (process_note_in_background RT w' data')).
Proof.
  intros Hposted Hbody.
  assert (Hsig : contains BOT_SIGNATURE c = true).
  { destruct Hposted as [H|[H Hc]].
    - exact (mr_comments_signed RT w data p i c H).
    - destruct (note_comments RT w data p i c H) as [Hs|Hs]; [exact Hs|].
      contradiction. }
  destruct (process_note_quiet_or_review RT w' data') as [H|H]; [exact H|].
  destruct H as (pre & e & p' & i' & n & u & body' & up & Hb & Hs & _).
  rewrite Hbody in Hb. injection Hb as <-. congruence.
Qed.

Lemma own_review_is_not_answered_example :
  Forall quiet
    (trace (process_note_in_background Sample.runtime Sample.world_up
              (Cases.note_with (review_comment (utf8 "LGTM"))))).
Proof.
  assert (H : In (JInt 7, JInt 3, review_comment (utf8 "LGTM"))
                (posted (trace (process_mr_in_background Sample.runtime
                                  Sample.world_up (Sample.mr_event "open")))))
    by (vm_compute; left; reflexivity).
  exact (own_review_is_not_answered Sample.runtime Sample.world_up
           Sample.world_up (Sample.mr_event "open")
           (Cases.note_with (review_comment (utf8 "LGTM"))) (JInt 7) (JInt 3)
           (review_comment (utf8 "LGTM")) (or_introl H) eq_refl).
Defined.

(** X17.  A comment in which no trigger is found starts nothing: the run
    has quiet events only and posts no comment. *)
Theorem comment_without_command_is_ignored (RT : Runtime) (w : World)
    (data : json) (body : pystr) :
  note_body_of data = Some (JStr body) ->
  extract_user_prompt RT body = None ->
  Forall quiet (trace (process_note_in_background RT w data))
  /\ posted (trace (process_note_in_background RT w data)) = [].
Proof.
  intros Hbody Hnone.
  assert (H : Forall quiet (trace (process_note_in_background RT w data))).
  { destruct (process_note_quiet_or_review RT w data) as [H|H]; [exact H|].
    destruct H as (pre & e & p' & i' & n & u & body' & up & Hb & _ & Hup & _).
    rewrite Hbody in Hb. injection Hb as <-. congruence. }
  split; [exact H|apply posted_quiet; exact H].
Qed.

Lemma comment_without_command_is_ignored_example :
  Forall quiet
    (trace (process_note_in_background Sample.runtime Sample.world_up
              (Sample.note_event "thanks, merging")))
  /\ posted (trace (process_note_in_background Sample.runtime Sample.world_up
                      (Sample.note_event "thanks, merging"))) = [].
Proof.
  exact (comment_without_command_is_ignored Sample.runtime Sample.world_up
           (Sample.note_event "thanks, merging") (utf8 "thanks, merging")
           eq_refl eq_refl).
Defined.

Lemma printable_app RT a b :
  printable RT (JStr (a ++ b)) = true <->
  printable RT (JStr a) = true /\ printable RT (JStr b) = true.
Proof. cbn [printable]. rewrite forallb_app. apply andb_true_iff. Qed.

(** A prompt cut out of a printable body is printable. *)
Lemma extracted_prompt_printable RT body up :
  printable RT (JStr body) = true ->
  extract_user_prompt RT body = Some up ->
  printable RT (JStr up) = true.
Proof.
  intros Hb Hup. unfold extract_user_prompt in Hup.
  assert (Hpiece : exists a b, body = a ++ up ++ b).
  { destruct (scan_command_triggers RT body command_triggers) as [q|] eqn:Hc.
    - injection Hup as <-.
      destruct (scan_command_triggers_slice RT body _ q Hc) as [k ->].
      destruct (slice_from_suffix body k) as [a Ea].
      destruct (strip_infix (slice_from body k)) as (a' & b & Eb).
      exists (a ++ a'), b. rewrite <- app_assoc, <- Eb. exact Ea.
    - apply scan_simple_triggers_whole in Hup. subst up. apply strip_infix. }
  destruct Hpiece as (a & b & E). rewrite E in Hb.
  apply printable_app in Hb as [_ Hb]. apply printable_app in Hb as [Hb _].
  exact Hb.
Qed.

(** X18.  End to end: for a note hook on a merge request the handler
    resolves, with a printable comment that holds no signature and yields a
    prompt, the handler logs the prompt, fetches the changes, reads the
    merge request, has one text generated from the prompt built with the
    extracted instruction, and posts one comment on the merge request of
    the note, naming the author of the note, provided the changes are
    fetched and not empty and the prompt builds. *)
Theorem requested_review_is_posted_on_the_noted_merge_request (RT : Runtime)
    (w : World) (data p i u : json) (lookup : list event)
    (body up prompt : pystr) :
  note_hook RT w data (JStr body) p i u lookup ->
  printable RT (JStr body) = true ->
  contains BOT_SIGNATURE body = false ->
  extract_user_prompt RT body = Some up ->
  truthy (fetched w p i) = true ->
  AnalyzeWithGeminiForComment.build_prompt RT (fetched w p i)
    (fetched_info w p i) (Some up) = Ok prompt ->
  generation_printable RT w prompt = true ->
  exists e,
    prompt_log RT body e up
    /\ process_note_in_background RT w data
       = (lookup
          ++ [e; GetChanges p i; GetMergeRequest p i; GenerateContent prompt;
              PostNote p i
                (requested_review_comment RT (generated_text w prompt) u)],
          Ok tt).
Proof.
  intros Hhook Hbody Hsig Hup Htr Hprompt Hgen.
  pose proof (extracted_prompt_printable RT body up Hbody Hup) as Hpup.
  destruct Hhook as (note & project & author & note_id & noteable_id
                     & Hnote & Hid & Hnb & Hproject & Hp & Htype & Hnid
                     & Hres & Hi & Hauthor & Hu & Hprint).
  cbn [forallb] in Hprint.
  repeat (apply andb_true_iff in Hprint as [? Hprint]).
  assert (Hall : py_print RT [p; k_MergeRequest; noteable_id; i; note_id; u]
                 = Ok tt).
  { apply py_print_ok. cbn [forallb].
    repeat (apply andb_true_iff; split); trivial. }
  assert (Hline : py_print RT [u; JStr (firstn 100 body)] = Ok tt).
  { apply py_print_ok. cbn [forallb].
    repeat (apply andb_true_iff; split); trivial.
    cbn [printable] in *. now apply forallb_firstn. }
  assert (Hpp : py_print RT [JStr up] = Ok tt).
  { apply py_print_ok. cbn [forallb]. now rewrite Hpup. }
  assert (Hpin : py_print RT [p; i; note_id] = Ok tt)
    by (apply (py_print_incl RT _ _ Hall); intros ? ?; cbn [In] in *; tauto).
  assert (Hrun : forall e,
            bind (([e], Ok (Some up)) : M (option pystr))
              (fun user_prompt =>
                 match user_prompt with
                 | Some user_prompt =>
                     review_on_request RT w p i note_id u user_prompt
                 | None =>
                     shown <- lift (py_slice_to (JStr body) 50) ;;
                     Bot.log RT LogNoCommand [shown] ;;;
                     lift (py_print RT [p; i; note_id])
                 end)
            = ([e; GetChanges p i; GetMergeRequest p i; GenerateContent prompt;
                PostNote p i
                  (requested_review_comment RT (generated_text w prompt) u)],
               Ok tt)).
  { intros e. rewrite bind_run.
    rewrite (review_on_request_run RT w p i note_id u up Hpin), Htr. cbv zeta.
    rewrite (requested_review_run RT w p i note_id u _ up Hpin), Hprompt, Hgen.
    reflexivity. }
  assert (Hhead : process_note_in_background RT w data
                  = bind ((lookup, Ok tt) : M unit)
                      (fun _ =>
                         bind (user_prompt_of_note RT (JStr body))
                           (fun user_prompt =>
                              match user_prompt with
                              | Some user_prompt =>
                                  review_on_request RT w p i note_id u user_prompt
                              | None =>
                                  shown <- lift (py_slice_to (JStr body) 50) ;;
                                  Bot.log RT LogNoCommand [shown] ;;;
                                  lift (py_print RT [p; i; note_id])
                              end))).
  { unfold process_note_in_background, Bot.log.
    rewrite Hnote, bind_lift_ok, Hid, bind_lift_ok, Hnb, bind_lift_ok.
    rewrite Hproject, bind_lift_ok, Hp, bind_lift_ok, Htype, bind_lift_ok.
    rewrite Hnid, bind_lift_ok, Hres, !bind_run. cbn [trace outcome fst snd].
    printed Hall. rewrite bind_lift_ok.
    replace (py_eq k_MergeRequest (JStr (utf8 "MergeRequest"))) with true
      by reflexivity.
    replace (is_none i) with false by (destruct i; cbn; congruence).
    cbn [negb orb].
    rewrite Hauthor, bind_lift_ok, Hu, bind_lift_ok.
    cbn [py_slice_to]. rewrite bind_lift_ok.
    rewrite Hline, bind_lift_ok. cbn [py_in]. rewrite bind_lift_ok, Hsig.
    reflexivity. }
  rewrite Hhead, bind_run. cbn [trace outcome fst snd].
  rewrite user_prompt_of_note_str. unfold extract_user_prompt in Hup.
  destruct (scan_command_triggers RT body command_triggers) as [q|] eqn:Hc.
  - injection Hup as ->. rewrite Hpp.
    exists (Log (LogPrompt up)). split; [left; split; [exact Hc|reflexivity]|].
    rewrite (Hrun (Log (LogPrompt up))). reflexivity.
  - rewrite Hup, Hpp.
    exists (Log (LogSimplePrompt up)).
    split; [right; split; [exact Hc|split; [exact Hup|reflexivity]]|].
    rewrite (Hrun (Log (LogSimplePrompt up))). reflexivity.
Qed.

Lemma requested_review_is_posted_on_the_noted_merge_request_example :
  exists prompt,
    AnalyzeWithGeminiForComment.build_prompt Sample.runtime
      (fetched Sample.world_up (JInt 7) (JInt 3))
      (fetched_info Sample.world_up (JInt 7) (JInt 3))
      (Some (utf8 "the tests")) = Ok prompt
    /\ exists e,
         prompt_log Sample.runtime (utf8 "@Bot the tests") e (utf8 "the tests")
         /\ process_note_in_background Sample.runtime Sample.world_up
              (Sample.note_event "@Bot the tests")
            = ([e; GetChanges (JInt 7) (JInt 3); GetMergeRequest (JInt 7) (JInt 3);
                GenerateContent prompt;
                PostNote (JInt 7) (JInt 3)
                  (requested_review_comment Sample.runtime (utf8 "LGTM")
                     (Sample.str "dev"))],
               Ok tt).
Proof.
  destruct (AnalyzeWithGeminiForComment.build_prompt Sample.runtime
              (fetched Sample.world_up (JInt 7) (JInt 3))
              (fetched_info Sample.world_up (JInt 7) (JInt 3))
              (Some (utf8 "the tests"))) as [prompt|e] eqn:Hp; [|discriminate Hp].
  assert (Hhook : note_hook Sample.runtime Sample.world_up
                    (Sample.note_event "@Bot the tests")
                    (JStr (utf8 "@Bot the tests"))
                    (JInt 7) (JInt 3) (Sample.str "dev") []).
  { do 5 eexists. repeat split; try reflexivity. discriminate. }
  exists prompt. split; [reflexivity|].
  exact (requested_review_is_posted_on_the_noted_merge_request Sample.runtime
           Sample.world_up (Sample.note_event "@Bot the tests")
           (JInt 7) (JInt 3) (Sample.str "dev") [] (utf8 "@Bot the tests")
           (utf8 "the tests") prompt Hhook eq_refl eq_refl eq_refl eq_refl Hp
           eq_refl).
Defined.

(** X19.  A merge request hook with action open or update whose project id
    or iid is a string that standard output cannot encode ends at the
    [print] of line 314: the thread raises before it fetches anything. *)
Theorem unprintable_ids_stop_the_review (RT : Runtime) (w : World)
    (data : json) (attrs : list (pystr * json)) :
  let action := get_default attrs (utf8 "action") JNull in
  let p := get_default attrs (utf8 "target_project_id") JNull in
  let i := get_default attrs (utf8 "iid") JNull in
  py_get data (utf8 "object_attributes") (JObj []) = Ok (JObj attrs) ->
  action = a_open \/ action = a_update ->
  printable RT p && printable RT i = false ->
  process_mr_in_background RT w data = ([], Raise UnicodeEncodeError).
Proof.
  intros action p i Hattrs Haction Hprint.
  unfold process_mr_in_background.
  rewrite Hattrs, !bind_lift_ok. cbn [py_get]. rewrite !bind_lift_ok.
  fold (get_default attrs (utf8 "action") JNull).
  fold (get_default attrs (utf8 "target_project_id") JNull).
  fold (get_default attrs (utf8 "iid") JNull).
  fold action p i.
  assert (Hin : existsb (py_eq action) [JStr (utf8 "open"); JStr (utf8 "update")]
                = true)
    by (destruct Haction as [-> | ->]; reflexivity).
  rewrite Hin. cbn [negb]. unfold py_print. cbn [forallb].
  rewrite andb_true_r, Hprint. reflexivity.
Qed.

Lemma unprintable_ids_stop_the_review_example :
  process_mr_in_background Sample.runtime Sample.world_up Cases.surrogate_mr_event
  = ([], Raise UnicodeEncodeError).
Proof.
  exact (unprintable_ids_stop_the_review Sample.runtime Sample.world_up
           Cases.surrogate_mr_event
           (map (fun kv => (utf8 (fst kv), snd kv))
              [("action", Sample.str "open"); ("target_project_id", JInt 7);
               ("iid", JStr [0xD800%N])]%string)
           eq_refl (or_introl eq_refl) eq_refl).
Defined.
